(** * ush: the MicroPython micro-shell of [shell.py]

    A shallow embedding of [src/shell.py]: the command handlers, the
    HTTP fetch helper [http_get] and the dispatch loop [shell], over an
    explicit model of the host the script talks to (file system, sockets,
    console), followed by the properties of the specification.

    Layout:
    - [Py]      the Python built-ins the script uses on strings;
    - [Host]    the host: file system, network, the trace of what is done
                to the outside, and the state-and-exception monad the
                handlers run in;
    - [Ush]     the handlers, [http_get] and [shell], line by line;
    - [Demo]    one concrete host (binary64 floats, a small file system
                and network) on which the statements are evaluated;
    - the notions the statements use, then the lemmas and theorems. *)

From Stdlib Require Import ZArith Floats Ascii String.
From stdpp Require Import base gmap strings list pretty.

Set Default Proof Using "Type".

(* ===================================================================== *)
(** ** Python built-ins on strings *)
(* ===================================================================== *)

Module Py.

(** Text is kept as its byte sequence: [str(response, 'utf8')] and
    [bytes(..., 'utf8')] are the identity on the model. *)

Definition CR : ascii := "013"%char.
Definition LF : ascii := "010"%char.
Definition CRLF : string := String CR (String LF "").

(** [bool(s)] for a string: non-empty. *)
Definition nonempty (s : string) : bool :=
  match s with EmptyString => false | String _ _ => true end.

(** ASCII white space, as [str.split()] and [int()] see it. *)
Definition is_space (c : ascii) : bool :=
  let n := nat_of_ascii c in
  (n =? 32)%nat || ((9 <=? n)%nat && (n <=? 13)%nat).

Definition snoc (s : string) (c : ascii) : string := s +:+ String c "".

Definition flush (cur : string) : list string :=
  if nonempty cur then [cur] else [].

(** [s.split()]: the maximal runs of non-space characters. *)
Fixpoint split_ws_go (s cur : string) : list string :=
  match s with
  | EmptyString => flush cur
  | String c s' =>
      if is_space c then flush cur ++ split_ws_go s' ""
      else split_ws_go s' (snoc cur c)
  end.

Definition split_ws (s : string) : list string := split_ws_go s "".

(** [s.split(sep, maxsplit)] for a non-empty [sep]: cut at the leftmost
    occurrences of [sep], at most [maxsplit] times.  [skip] counts the
    characters of a separator still to be dropped. *)
Fixpoint split_go (sep s : string) (maxsplit skip : nat) (cur : string)
  : list string :=
  match s with
  | EmptyString => [cur]
  | String c s' =>
      match skip with
      | S k => split_go sep s' maxsplit k cur
      | O =>
          match maxsplit with
          | S m =>
              if String.prefix sep s
              then cur :: split_go sep s' m (String.length sep - 1) ""
              else split_go sep s' maxsplit O (snoc cur c)
          | O => split_go sep s' O O (snoc cur c)
          end
      end
  end.

Definition split (sep : string) (maxsplit : nat) (s : string) : list string :=
  split_go sep s maxsplit O "".

(** [sub in s]. *)
Fixpoint contains (sub s : string) : bool :=
  String.prefix sub s ||
  match s with
  | EmptyString => false
  | String _ s' => contains sub s'
  end.

(** ["{:<n}".format(s)]: pad on the right with spaces up to width [n]. *)
Fixpoint spaces (n : nat) : string :=
  match n with O => "" | S k => String " " (spaces k) end.

Definition ljust (n : nat) (s : string) : string :=
  s +:+ spaces (n - String.length s).

(** [str(n)] for an integer. *)
Definition str_of_int (n : Z) : string := pretty n.

(** [int(s)] for a string: optional surrounding white space, an optional
    sign, then one or more decimal digits; anything else is a
    [ValueError] ([None] here).  Digit-group underscores are not
    modelled. *)
Definition digit_val (c : ascii) : option Z :=
  let n := nat_of_ascii c in
  if ((48 <=? n)%nat && (n <=? 57)%nat) then Some (Z.of_nat (n - 48)) else None.

Fixpoint digits_go (s : string) (acc : Z) : option Z :=
  match s with
  | EmptyString => Some acc
  | String c s' =>
      match digit_val c with
      | Some d => digits_go s' (10 * acc + d)%Z
      | None => None
      end
  end.

Definition digits (s : string) : option Z :=
  if nonempty s then digits_go s 0%Z else None.

Fixpoint lstrip (s : string) : string :=
  match s with
  | String c s' => if is_space c then lstrip s' else s
  | EmptyString => s
  end.

Definition strip (s : string) : string :=
  String.rev (lstrip (String.rev (lstrip s))).

Definition int_of_str (s : string) : option Z :=
  match strip s with
  | String "-" r => Z.opp <$> digits r
  | String "+" r => digits r
  | r => digits r
  end.

End Py.

(* ===================================================================== *)
(** ** The host: exceptions, file system, network, console *)
(* ===================================================================== *)

Module Host.

(** The exception classes the script can meet; all derive from
    [Exception], so [except Exception] catches each of them. *)
Inductive exn :=
| OSError | ValueError | IndexError | ZeroDivisionError | OverflowError
| EOFError.

(** Why a call never comes back. *)
Inductive stop :=
| HardReset      (* machine.reset() *)
| SoftReset      (* machine.soft_reset() *)
| Blocked.       (* a loop that ran out of the model's fuel *)

Inductive outcome (A : Type) :=
| Returned (a : A)
| Raised (e : exn)
| NoReturn (r : stop).
Arguments Returned {A} a.
Arguments Raised {A} e.
Arguments NoReturn {A} r.

(** *** Floating point

    [float] differs between MicroPython ports (single or double
    precision), so the arithmetic of [df] is stated over an interface.
    An integer operand is converted first: [a / b] on integers is
    [fdiv (of_int a) (of_int b)], as MicroPython computes it (CPython
    agrees on integers below 2^53). *)
Class PyFloat := {
  float_t : Type;
  of_int : Z → float_t;                  (* float(n) *)
  fmul : float_t → float_t → float_t;
  fdiv : float_t → float_t → float_t;    (* divisor not zero *)
  fzero : float_t → bool;                (* x == 0.0 *)
  trunc : float_t → exn + Z;             (* math.trunc: raises on inf, nan *)
}.

(** *** File system *)

Inductive node :=
| File (data : string)
| Dir
| Special (ftype : Z).   (* neither a file nor a directory *)

(** The tuple of [os.statvfs]. *)
Record statvfs_result := Statvfs {
  f_bsize : Z; f_frsize : Z; f_blocks : Z; f_bfree : Z; f_bavail : Z;
  f_files : Z; f_ffree : Z; f_favail : Z; f_flag : Z; f_namemax : Z;
}.

(** The fields of [os.stat]'s tuple that matter here. *)
Record stat_result := Stat { st_mode : Z; st_size : Z }.

(** One entry of [os.ilistdir]: (name, type, inode, size). *)
Record dirent := Dirent { d_name : string; d_type : Z; d_ino : Z; d_size : Z }.

(** *** Network *)

Definition addr : Type := string * Z.

Record network := Network {
  (* getaddrinfo(host, port)[0][-1]; [None]: the lookup raises OSError *)
  resolve : string → Z → option addr;
  (* does ssl.wrap_socket accept a socket that is not connected yet *)
  tls_wraps : bool;
  (* does connect() to this address succeed *)
  reachable : addr → bool;
  (* what the peer sends back to a request, one chunk per recv() *)
  respond : addr → string → list string;
}.

Record sock := Sock {
  sk_open : bool;
  sk_tls : bool;
  sk_peer : option addr;
  sk_rx : list string;
}.

(** *** Everything the script does to the outside, in order *)
Inductive event :=
| EvInput (prompt : string) (line : option string)
| EvPrint (s : string)
| EvPrintList (l : list string)
| EvStat (path : string)
| EvStatvfs (path : string)
| EvListdir (path : option string)
| EvIlistdir
| EvChdir (path : string)
| EvGetcwd
| EvMkdir (path : string)
| EvRemove (path : string)
| EvRmdir (path : string)
| EvOpen (path mode : string)
| EvRead (file : string)
| EvWrite (file data : string)
| EvClose (file : string)
| EvMemInfo (args : list string)
| EvQstrInfo
| EvReset (hard : bool)
| EvSocket (s : nat)
| EvGetaddrinfo (host : string) (port : Z)
| EvWrapSocket (s : nat)
| EvConnect (s : nat) (a : addr)
| EvSend (s : nat) (data : string)
| EvRecv (s : nat) (bufsize : nat)
| EvSockClose (s : nat).

#[global] Instance event_eq_dec : EqDecision event.
Proof. solve_decision. Defined.

(** *** The world *)
Record world := World {
  fs : gmap string node;          (* absolute path ↦ entry *)
  cwd : string;
  mounts : string → statvfs_result;
  net : network;
  socks : list sock;              (* sockets made so far; socket [i] is entry [i] *)
  trace : list event;
}.

Definition with_fs (m : gmap string node) (w : world) : world :=
  World m (cwd w) (mounts w) (net w) (socks w) (trace w).
Definition with_cwd (d : string) (w : world) : world :=
  World (fs w) d (mounts w) (net w) (socks w) (trace w).
Definition with_socks (l : list sock) (w : world) : world :=
  World (fs w) (cwd w) (mounts w) (net w) l (trace w).
Definition with_trace (t : list event) (w : world) : world :=
  World (fs w) (cwd w) (mounts w) (net w) (socks w) t.
Definition log (e : event) (w : world) : world :=
  with_trace (trace w ++ [e]) w.

(** *** The monad: state passing with Python exceptions *)
Definition M (A : Type) : Type := world → outcome A * world.

#[global] Instance M_ret : MRet M := λ A a w, (Returned a, w).
#[global] Instance M_bind : MBind M := λ A B f m w,
  match m w with
  | (Returned a, w') => f a w'
  | (Raised e, w') => (Raised e, w')
  | (NoReturn r, w') => (NoReturn r, w')
  end.

Definition raise {A} (e : exn) : M A := λ w, (Raised e, w).
Definition halt {A} (r : stop) : M A := λ w, (NoReturn r, w).
Definition gets {A} (f : world → A) : M A := λ w, (Returned (f w), w).
Definition modify (f : world → world) : M unit := λ w, (Returned tt, f w).
Definition emit (e : event) : M unit := modify (log e).

(** [try: body / except Exception: handler]. *)
Definition try_except {A} (body handler : M A) : M A := λ w,
  match body w with
  | (Raised _, w') => handler w'
  | r => r
  end.

(** [with ... :] exit or [finally]: [cleanup] runs however [body] ends,
    short of a reset. *)
Definition finally {A} (body : M A) (cleanup : M unit) : M A := λ w,
  match body w with
  | (Returned a, w') => (_ ← cleanup; mret a) w'
  | (Raised e, w') => (cleanup;; raise e) w'
  | r => r
  end.

Definition of_option {A} (e : exn) (o : option A) : M A :=
  match o with Some a => mret a | None => raise e end.

(** *** Console *)
Definition print (s : string) : M unit := emit (EvPrint s).
Definition print_list (l : list string) : M unit := emit (EvPrintList l).

(** *** Paths *)
Definition is_abs (p : string) : bool := String.prefix "/" p.

Definition join (d n : string) : string :=
  if String.prefix "/" (String.rev d) then d +:+ n else d +:+ "/" +:+ n.

(** No normalisation: a name is looked up as it is written, relative
    names under the working directory. *)
Definition abspath (w : world) (p : string) : string :=
  if is_abs p then p else join (cwd w) p.

Definition basename (k : string) : string :=
  List.last (Py.split "/" (String.length k) k) "".

Definition dirname (k : string) : string :=
  let d := String.substring 0 (String.length k - String.length (basename k) - 1) k in
  if Py.nonempty d then d else "/".

Definition is_dir (m : gmap string node) (k : string) : bool :=
  match m !! k with Some Dir => true | _ => false end.

Definition children (m : gmap string node) (d : string) : list string :=
  filter (λ k, k ≠ d ∧ dirname k = d) (map_to_list m).*1.

Definition node_type (n : node) : Z :=
  match n with File _ => 32768 | Dir => 16384 | Special t => t end.

Definition node_size (n : node) : Z :=
  match n with File data => Z.of_nat (String.length data) | _ => 0 end.

(** *** os *)
Definition os_stat (p : string) : M stat_result :=
  emit (EvStat p);;
  k ← gets (λ w, abspath w p);
  n ← (o ← gets (λ w, fs w !! k); of_option OSError o);
  mret (Stat (node_type n) (node_size n)).

Definition os_statvfs (p : string) : M statvfs_result :=
  emit (EvStatvfs p);;
  k ← gets (λ w, abspath w p);
  o ← gets (λ w, fs w !! k);
  match o with
  | Some _ => gets (λ w, mounts w k)
  | None => raise OSError
  end.

Definition listing (d : string) : M (list string) :=
  m ← gets fs;
  if is_dir m d then mret (children m d) else raise OSError.

Definition os_listdir (p : option string) : M (list string) :=
  emit (EvListdir p);;
  d ← gets (λ w, match p with Some p => abspath w p | None => cwd w end);
  ks ← listing d;
  mret (basename <$> ks).

Definition os_ilistdir : M (list dirent) :=
  emit EvIlistdir;;
  d ← gets cwd;
  ks ← listing d;
  m ← gets fs;
  mret ((λ k, let n := default Dir (m !! k) in
              Dirent (basename k) (node_type n) 0 (node_size n)) <$> ks).

Definition os_chdir (p : string) : M unit :=
  emit (EvChdir p);;
  k ← gets (λ w, abspath w p);
  m ← gets fs;
  if is_dir m k then modify (with_cwd k) else raise OSError.

Definition os_getcwd : M string := emit EvGetcwd;; gets cwd.

Definition os_mkdir (p : string) : M unit :=
  emit (EvMkdir p);;
  k ← gets (λ w, abspath w p);
  m ← gets fs;
  match m !! k with
  | None => if is_dir m (dirname k) then modify (with_fs (<[k := Dir]> m))
            else raise OSError
  | Some _ => raise OSError
  end.

Definition os_remove (p : string) : M unit :=
  emit (EvRemove p);;
  k ← gets (λ w, abspath w p);
  m ← gets fs;
  match m !! k with
  | Some (File _) | Some (Special _) => modify (with_fs (delete k m))
  | _ => raise OSError
  end.

Definition os_rmdir (p : string) : M unit :=
  emit (EvRmdir p);;
  k ← gets (λ w, abspath w p);
  m ← gets fs;
  match m !! k, children m k with
  | Some Dir, [] => modify (with_fs (delete k m))
  | _, _ => raise OSError
  end.

(** *** Files.  A file object is known by the path it was opened on. *)
Definition open_r (p : string) : M string :=
  emit (EvOpen p "r");;
  k ← gets (λ w, abspath w p);
  m ← gets fs;
  match m !! k with
  | Some (File _) => mret k
  | _ => raise OSError
  end.

(** [open(p, 'w')] creates the file, or empties the one that is there. *)
Definition open_w (p : string) : M string :=
  emit (EvOpen p "w");;
  k ← gets (λ w, abspath w p);
  m ← gets fs;
  match m !! k with
  | Some (File _) => modify (with_fs (<[k := File ""]> m));; mret k
  | None => if is_dir m (dirname k)
            then modify (with_fs (<[k := File ""]> m));; mret k
            else raise OSError
  | Some _ => raise OSError
  end.

Definition file_read (f : string) : M string :=
  emit (EvRead f);;
  m ← gets fs;
  match m !! f with
  | Some (File data) => mret data
  | _ => raise OSError
  end.

Definition file_write (f data : string) : M unit :=
  emit (EvWrite f data);;
  m ← gets fs;
  match m !! f with
  | Some (File old) => modify (with_fs (<[f := File (old +:+ data)]> m))
  | _ => raise OSError
  end.

Definition file_close (f : string) : M unit := emit (EvClose f).

(** *** micropython, machine *)
Definition mem_info (args : list string) : M unit := emit (EvMemInfo args).
Definition qstr_info : M unit := emit EvQstrInfo.
Definition machine_reset : M unit := emit (EvReset true);; halt HardReset.
Definition machine_soft_reset : M unit := emit (EvReset false);; halt SoftReset.

(** *** socket, ssl *)
Definition the_sock (s : nat) : M sock :=
  o ← gets (λ w, socks w !! s); of_option OSError o.

Definition set_sock (s : nat) (k : sock) : M unit :=
  modify (λ w, with_socks (<[s := k]> (socks w)) w).

Definition socket_socket : M nat :=
  s ← gets (λ w, length (socks w));
  emit (EvSocket s);;
  modify (λ w, with_socks (socks w ++ [Sock true false None []]) w);;
  mret s.

Definition socket_getaddrinfo (host : string) (port : Z) : M addr :=
  emit (EvGetaddrinfo host port);;
  o ← gets (λ w, resolve (net w) host port);
  of_option OSError o.

Definition ssl_wrap_socket (s : nat) : M nat :=
  emit (EvWrapSocket s);;
  k ← the_sock s;
  ok ← gets (λ w, tls_wraps (net w));
  if (ok : bool) then set_sock s (Sock (sk_open k) true (sk_peer k) (sk_rx k));; mret s
  else raise OSError.

Definition sock_connect (s : nat) (a : addr) : M unit :=
  emit (EvConnect s a);;
  k ← the_sock s;
  ok ← gets (λ w, reachable (net w) a);
  if (ok : bool) then set_sock s (Sock (sk_open k) (sk_tls k) (Some a) (sk_rx k))
  else raise OSError.

Definition sock_send (s : nat) (data : string) : M unit :=
  emit (EvSend s data);;
  k ← the_sock s;
  match sk_peer k with
  | Some a =>
      reply ← gets (λ w, respond (net w) a data);
      set_sock s (Sock (sk_open k) (sk_tls k) (sk_peer k) (sk_rx k ++ reply))
  | None => raise OSError
  end.

(** [s.recv(n)]: the next chunk; [b''] once the peer has closed. *)
Definition sock_recv (s : nat) (bufsize : nat) : M string :=
  emit (EvRecv s bufsize);;
  k ← the_sock s;
  match sk_rx k with
  | [] => mret ""
  | data :: rest =>
      set_sock s (Sock (sk_open k) (sk_tls k) (sk_peer k) rest);; mret data
  end.

(** [s.close()].  Part of the socket interface; see [http_get]. *)
Definition sock_close (s : nat) : M unit :=
  emit (EvSockClose s);;
  k ← the_sock s;
  set_sock s (Sock false (sk_tls k) (sk_peer k) (sk_rx k)).

End Host.

(* ===================================================================== *)
(** ** The shell: handlers, fetch helper, dispatch loop *)
(* ===================================================================== *)

Module Ush.
Import Host.

Notation "a == b" := (String.eqb a b) (at level 70, no associativity).

(** The text of [ush_help] (lines 86-102) and of [reboot -h] (154-156). *)
Definition help_text : string :=
"ush: micropython shell implementation in Python.

          cat       Print file contents
          cd        Change directory
          df        Disk usage
          free      Memory usage
          ls [-l]   List files
          mkdir     Make a directory
          pwd       Print working directory
          reboot    Reboot/reset MCU
          rm        Remove a file
          rmdir     Remove a directory
          uget      HTTP[S] url fetcher/downloader


          Supports basic shell commands.
          Many commands offer a 'help' and/or '-h' arg for more info.".

Definition reboot_usage : string :=
"usage: reboot [hard]
                  by default, a soft reset is performed (reset interpreter only)
                  when 'hard' is supplied, act like reset button is pressed".

(** [for x in l: body x]. *)
Fixpoint for_each {A} (l : list A) (body : A → M unit) : M unit :=
  match l with
  | [] => mret tt
  | x :: rest => body x;; for_each rest body
  end.

Section Handlers.
Context `{FL : PyFloat}.

(** Lines 20-31. *)
Definition ush_cat (args : list string) : M unit :=
  match args with
  | [] => print "usage: cat <file>"
  | path :: _ =>
      try_except
        (f ← open_r path;
         finally (data ← file_read f; print data) (file_close f))
        (print ("cat: no such file or directory: " +:+ path))
  end.

(** Lines 33-42. *)
Definition ush_cd (args : list string) : M unit :=
  match args with
  | [] => print "usage: cd <dir>"
  | path :: _ =>
      try_except (os_chdir path)
                 (print ("cd: no such file or directory: " +:+ path))
  end.

(** Python's arithmetic on the numbers of [ush_df]. *)
Definition int_div_int (a b : Z) : M float_t :=       (* a / b *)
  if (b =? 0)%Z then raise ZeroDivisionError
  else mret (fdiv (of_int a) (of_int b)).
Definition int_mul_float (a : Z) (x : float_t) : float_t :=   (* a * x *)
  fmul (of_int a) x.
Definition int_div_float (a : Z) (x : float_t) : M float_t := (* a / x *)
  if fzero x then raise ZeroDivisionError else mret (fdiv (of_int a) x).
Definition float_mul_int (x : float_t) (a : Z) : float_t :=   (* x * a *)
  fmul x (of_int a).
Definition math_trunc (x : float_t) : M Z :=
  match trunc x with inl e => raise e | inr z => mret z end.

(** Lines 68-77: the figures of the table, (adj_size, adj_used,
    adj_avail, adj_cap). *)
Definition df_figures (st : statvfs_result) : M (Z * Z * Z * Z) :=
  bsize_mod ← int_div_int (f_frsize st) 1024;
  '(adj_size, adj_avail) ←
    (if (f_frsize st >? 1024)%Z then
       adj_size ← math_trunc (int_mul_float (f_blocks st) bsize_mod);
       adj_avail ← math_trunc (int_mul_float (f_bfree st) bsize_mod);
       mret (adj_size, adj_avail)
     else
       adj_size ← (q ← int_div_float (f_blocks st) bsize_mod; math_trunc q);
       adj_avail ← (q ← int_div_float (f_bfree st) bsize_mod; math_trunc q);
       mret (adj_size, adj_avail));
  let adj_used := (adj_size - adj_avail)%Z in
  adj_cap ← (q ← int_div_int adj_used adj_size;
             math_trunc (float_mul_int q 100));
  mret (adj_size, adj_used, adj_avail, adj_cap).

(** ["{:<12} {:<12} {:<12} {:<12} {:<12}".format(a, b, c, d, e)]. *)
Definition df_row (a b c d e : string) : string :=
  Py.ljust 12 a +:+ " " +:+ Py.ljust 12 b +:+ " " +:+ Py.ljust 12 c +:+ " "
  +:+ Py.ljust 12 d +:+ " " +:+ Py.ljust 12 e.

(** Lines 44-82. *)
Definition ush_df (args : list string) : M unit :=
  let path := match args with p :: _ => p | [] => "/" end in
  try_except
    (st ← os_statvfs path;
     '(adj_size, adj_used, adj_avail, adj_cap) ← df_figures st;
     print (df_row "Filesystem" "1K-blocks" "Used" "Avail" "Capacity");;
     print (df_row path (Py.str_of_int adj_size) (Py.str_of_int adj_used)
                   (Py.str_of_int adj_avail) (Py.str_of_int adj_cap +:+ "%")))
    (print ("df: no such file or directory: " +:+ path)).

(** Lines 84-102. *)
Definition ush_help : M unit := print help_text.

(** Lines 116-125: one entry of [ls -l]. *)
Definition ls_entry (f : dirent) : M unit :=
  let '(fname, txt_ftype) :=
    if (d_type f =? 16384)%Z then (d_name f +:+ "/", "dir")
    else if (d_type f =? 32768)%Z then (d_name f, "file")
    else (d_name f, Py.str_of_int (d_type f)) in
  print (Py.ljust 24 (Py.str_of_int (d_size f)) +:+ " " +:+ Py.ljust 6 txt_ftype
         +:+ " " +:+ fname).

(** Lines 104-129. *)
Definition ush_ls (args : list string) : M unit :=
  match args with
  | a0 :: _ =>
      if a0 == "-h" then print "usage: ls [-l] [path]"
      else if a0 == "-l" then
        match args with
        | [_; f] =>
            st ← os_stat f;
            print (Py.ljust 24 (Py.str_of_int (st_size st)) +:+ " " +:+ f)
        | _ =>
            entries ← os_ilistdir;
            for_each entries ls_entry
        end
      else l ← os_listdir (Some a0); print_list l
  | [] => l ← os_listdir None; print_list l
  end.

(** Lines 131-134. *)
Definition ush_meminfo (args : list string) : M unit :=
  mem_info args;; qstr_info.

(** [not args or args[0] == "-h" or args[0] == "help"]. *)
Definition wants_usage (args : list string) : bool :=
  match args with
  | [] => true
  | a0 :: _ => (a0 == "-h") || (a0 == "help")
  end.

Definition arg0 (args : list string) : string := List.hd "" args.

(** Lines 136-144. *)
Definition ush_mkdir (args : list string) : M unit :=
  if wants_usage args then print "usage: mkdir <file>"
  else try_except (os_mkdir (arg0 args))
         (print ("mkdir: " +:+ arg0 args +:+ ": File or directory exists")).

(** Lines 146-148. *)
Definition ush_pwd : M unit := d ← os_getcwd; print d.

(** Lines 150-163. *)
Definition ush_reboot (args : list string) : M unit :=
  let soft := print "Soft reset initiated";; machine_soft_reset in
  match args with
  | a0 :: _ =>
      if (a0 == "-h") || (a0 == "help") then print reboot_usage
      else
        (if a0 == "hard"
         then print "Hard reset initiated (you will need to reconnect)";;
              machine_reset
         else mret tt);;
        soft
  | [] => soft
  end.

(** Lines 165-173. *)
Definition ush_rm (args : list string) : M unit :=
  if wants_usage args then print "usage: rm <file>"
  else try_except (os_remove (arg0 args))
         (print ("rm: " +:+ arg0 args +:+ ": No such file (or is a directory)")).

(** Lines 175-183. *)
Definition ush_rmdir (args : list string) : M unit :=
  if wants_usage args then print "usage: rmdir <directory>"
  else try_except (os_rmdir (arg0 args))
         (print ("rm: " +:+ arg0 args +:+ ": No such directory (or is a file)")).

(** *** The fetch helper *)

(** [port] is the text after the colon, or the integer default. *)
Inductive port :=
| PortStr (s : string)
| PortInt (n : Z).

Definition port_falsy (p : port) : bool :=      (* not port *)
  match p with PortStr s => negb (Py.nonempty s) | PortInt n => (n =? 0)%Z end.

Definition int_of_port (p : port) : M Z :=      (* int(port) *)
  match p with
  | PortInt n => mret n
  | PortStr s => of_option ValueError (Py.int_of_str s)
  end.

Definition str_of_port (p : port) : string :=   (* "{}".format(port) *)
  match p with PortStr s => s | PortInt n => Py.str_of_int n end.

(** Lines 187-192: scheme, host, port and path of the URL. *)
Definition parse_url (url : string) : M (string * string * port * string) :=
  match Py.split "/" 3 url with
  | [scheme; _; rawhost; path] =>
      if Py.contains ":" rawhost then
        match Py.split ":" 1 rawhost with
        | [host; p] => mret (scheme, host, PortStr p, path)
        | _ => raise ValueError
        end
      else mret (scheme, rawhost, PortInt 80, path)
  | _ => raise ValueError
  end.

(** Lines 195-204: the socket to talk on, the port as left by the scheme
    branch and the address to connect to; [None] after the
    unknown-scheme message. *)
Definition open_scheme (scheme host : string) (p : port) (s : nat)
  : M (option (nat * port * addr)) :=
  if scheme == "https:" then
    let p := if port_falsy p then PortInt 443 else p in
    n ← int_of_port p;
    a ← socket_getaddrinfo host n;
    s ← ssl_wrap_socket s;
    mret (Some (s, p, a))
  else if scheme == "http:" then
    n ← int_of_port p;
    a ← socket_getaddrinfo host n;
    mret (Some (s, p, a))
  else
    print ("Error: unknown scheme: " +:+ scheme);;
    mret None.

(** Lines 209-215: read until the peer closes. *)
Fixpoint recv_loop (fuel : nat) (s : nat) (response : string) : M string :=
  match fuel with
  | O => halt Blocked
  | S fuel =>
      data ← sock_recv s 100;
      if Py.nonempty data then recv_loop fuel s (response +:+ data)
      else mret response
  end.

(** The peer's reply is a finite list of chunks, so one turn per chunk
    still queued and one for the final empty read are enough. *)
Definition recv_fuel (s : nat) : M nat :=
  gets (λ w, S (length (default [] (sk_rx <$> socks w !! s)))).

(** Lines 220-235: what becomes of the body. *)
Definition output_body (body : string) (output_file : option string) : M unit :=
  if Py.nonempty body then
    match output_file with
    | Some out =>
        if Py.nonempty out then
          try_except
            (os_stat out;;
             print "Error: file {} already exists, will not overwrite")
            (print ("Writing output to " +:+ out);;
             of_ ← open_w out;
             file_write of_ body;;
             file_close of_)
        else print "Body:";; print body
    | None => print "Body:";; print body
    end
  else print "Body: None".

(** Lines 217-235. *)
Definition handle_response (response : string) (output_file : option string)
  : M unit :=
  match Py.split (Py.CRLF +:+ Py.CRLF) 1 response with
  | [headers; body] =>
      print "Headers:";;
      print headers;;
      output_body body output_file
  | _ => raise ValueError
  end.

(** Line 207: ['GET /%s HTTP/1.0\r\nHost: %s\r\n\r\n' % (path, host)]. *)
Definition get_request (path host : string) : string :=
  "GET /" +:+ path +:+ " HTTP/1.0" +:+ Py.CRLF
  +:+ "Host: " +:+ host +:+ Py.CRLF +:+ Py.CRLF.

(** Lines 205-215 and 217-235: the exchange with the peer at [a]. *)
Definition exchange (scheme host : string) (p : port) (path : string)
    (output_file : option string) (s : nat) (a : addr) : M unit :=
  print ("DEBUG: http_get scheme(" +:+ scheme +:+ ") host(" +:+ host
         +:+ ") port(" +:+ str_of_port p +:+ ") path(" +:+ path +:+ ")");;
  sock_connect s a;;
  sock_send s (get_request path host);;
  fuel ← recv_fuel s;
  response ← recv_loop fuel s "";
  handle_response response output_file.

(** Lines 195-235: the fetch on the socket [s] just made. *)
Definition http_get_on (scheme host : string) (p : port) (path : string)
    (output_file : option string) (s : nat) : M unit :=
  r ← open_scheme scheme host p s;
  match r with
  | None => mret tt
  | Some (s, p, a) => exchange scheme host p path output_file s a
  end.

(** Lines 185-235. *)
Definition http_get (url : string) (output_file : option string) : M unit :=
  '(scheme, host, p, path) ← parse_url url;
  s ← socket_socket;
  http_get_on scheme host p path output_file s.

(** Lines 237-249. *)
Definition ush_uget (args : list string) : M unit :=
  match args with
  | [] => print "usage: uget [outputfile] <url>"
  | a0 :: _ =>
      let url := List.last args "" in
      if (2 <=? length args)%nat then http_get url (Some a0)
      else http_get url None
  end.

(** *** The dispatch loop *)

Inductive verdict := Continue | Break.

(** The names the chain of line 262-287 tests for. *)
Definition commands : list string :=
  ["exit"; "quit"; "cat"; "cd"; "df"; "free"; "meminfo"; "vmstat"; "help";
   "ls"; "mkdir"; "pwd"; "reboot"; "rm"; "rmdir"; "uget"; "wget"].

(** Lines 262-289: the chain on the command name. *)
Definition dispatch (cmd : string) (cmd_args : list string) : M verdict :=
  if (cmd == "exit") || (cmd == "quit") then mret Break
  else
    (if cmd == "cat" then ush_cat cmd_args
     else if cmd == "cd" then ush_cd cmd_args
     else if cmd == "df" then ush_df cmd_args
     else if (cmd == "free") || (cmd == "meminfo") || (cmd == "vmstat")
       then ush_meminfo cmd_args
     else if cmd == "help" then ush_help
     else if cmd == "ls" then ush_ls cmd_args
     else if cmd == "mkdir" then ush_mkdir cmd_args
     else if cmd == "pwd" then ush_pwd
     else if cmd == "reboot" then ush_reboot cmd_args
     else if cmd == "rm" then ush_rm cmd_args
     else if cmd == "rmdir" then ush_rmdir cmd_args
     else if (cmd == "uget") || (cmd == "wget") then ush_uget cmd_args
     else print ("ush: command not found: " +:+ cmd));;
    mret Continue.

(** Lines 257-289: one turn of the loop on the line read. *)
Definition shell_turn (inp : string) : M verdict :=
  if negb (Py.nonempty inp) then mret Continue
  else
    match Py.split_ws inp with
    | [] => raise IndexError                 (* cmd_args.pop(0) *)
    | cmd :: cmd_args => dispatch cmd cmd_args
    end.

(** Lines 253-289.  The lines typed are [stdin]; [input] raises
    [EOFError] when they are used up. *)
Fixpoint shell (stdin : list string) : M unit :=
  match stdin with
  | [] => emit (EvInput "$ " None);; raise EOFError
  | inp :: rest =>
      emit (EvInput "$ " (Some inp));;
      v ← shell_turn inp;
      match v with
      | Break => mret tt
      | Continue => shell rest
      end
  end.

End Handlers.
End Ush.

(* ===================================================================== *)
(** ** A concrete host *)
(* ===================================================================== *)

Module Demo.
Import Host Ush.

(** IEEE 754 binary64, the [float] of the ports built with double
    precision (and of CPython). *)
Definition f64_of_int (z : Z) : float :=
  SF2Prim (binary_normalize prec emax z 0 false).

Definition f64_trunc (x : float) : exn + Z :=
  match Prim2SF x with
  | S754_zero _ => inr 0%Z
  | S754_finite s m e =>
      inr (cond_Zopp s (if (0 <=? e)%Z then Z.pos m * 2 ^ e
                        else Z.pos m / 2 ^ (- e)))%Z
  | S754_infinity _ => inl OverflowError
  | S754_nan => inl ValueError
  end.

#[global] Instance binary64 : PyFloat := {
  float_t := float;
  of_int := f64_of_int;
  fmul := PrimFloat.mul;
  fdiv := PrimFloat.div;
  fzero := λ x, PrimFloat.eqb x 0%float;
  trunc := f64_trunc;
}.

(** A flash file system of 4096-byte blocks, 1000 in all and 250 free,
    and a pseudo file system of no blocks mounted on [/proc]. *)
Definition flash : statvfs_result := Statvfs 4096 4096 1000 250 250 0 0 0 0 255.
Definition pseudo : statvfs_result := Statvfs 4096 4096 0 0 0 0 0 0 0 255.

Definition demo_fs : gmap string node :=
  <["/" := Dir]> (<["/boot.py" := File "import shell"]>
  (<["/lib" := Dir]> (<["/proc" := Dir]> ∅))).

Definition ok_headers : string :=
  "HTTP/1.0 200 OK" +:+ Py.CRLF +:+ "Content-Type: text/plain".

(** One server, [example.com]: [/empty] has an empty body, [/raw] answers
    without a header block, every other path holds [hello]. *)
Definition demo_net : network := {|
  resolve := λ host p, if host == "example.com" then Some ("93.184.216.34", p) else None;
  tls_wraps := true;
  reachable := λ _, true;
  respond := λ _ request,
    if Py.contains "GET /empty " request then [ok_headers +:+ Py.CRLF +:+ Py.CRLF]
    else if Py.contains "GET /raw " request then ["hello"]
    else [ok_headers; Py.CRLF +:+ Py.CRLF +:+ "hello"];
|}.

Definition demo : world := {|
  fs := demo_fs;
  cwd := "/";
  mounts := λ k, if k == "/proc" then pseudo else flash;
  net := demo_net;
  socks := [];
  trace := [];
|}.

End Demo.

(* ===================================================================== *)
(** ** Notions used in the statements *)
(* ===================================================================== *)

Import Host Ush.

(** [follows P w w']: from [w] to [w'] the trace grew by events that
    satisfy [P], and every socket of [w] is still there, open if it was
    open. *)
Definition follows (P : event → Prop) (w w' : world) : Prop :=
  (∃ evs, trace w' = trace w ++ evs ∧ Forall P evs)
  ∧ (∀ s k, socks w !! s = Some k →
            ∃ k', socks w' !! s = Some k' ∧ sk_open k' = sk_open k).

Definition keeps (P : event → Prop) {A} (m : M A) : Prop :=
  ∀ w, follows P w (m w).2.

(** What the read loop gathers from the chunks queued at a socket: all of
    them up to the first empty one. *)
Fixpoint until_empty (chunks : list string) : string :=
  match chunks with
  | [] => ""
  | c :: rest => if Py.nonempty c then c +:+ until_empty rest else ""
  end.

(** Events other than making or closing a socket. *)
Definition no_socket_event (e : event) : Prop :=
  match e with EvSocket _ | EvSockClose _ => False | _ => True end.

Section DfSpec.
Context `{FL : PyFloat}.

(** The figures as the specification words them: [frsize/1024], a count
    of blocks times or over that ratio, and the capacity in percent. *)
Definition spec_ratio (st : statvfs_result) : float_t :=
  fdiv (of_int (f_frsize st)) (of_int 1024).

Definition spec_adj (st : statvfs_result) (n : Z) : float_t :=
  if (f_frsize st >? 1024)%Z then fmul (of_int n) (spec_ratio st)
  else fdiv (of_int n) (spec_ratio st).

Definition spec_cap (adj_size adj_avail : Z) : float_t :=
  fmul (fdiv (of_int (adj_size - adj_avail)) (of_int adj_size)) (of_int 100).

(** When no division is by zero and the truncations are defined. *)
Definition df_defined (st : statvfs_result) (adj_size adj_avail adj_cap : Z)
  : Prop :=
  ((f_frsize st ≤ 1024)%Z → fzero (spec_ratio st) = false)
  ∧ trunc (spec_adj st (f_blocks st)) = inr adj_size
  ∧ trunc (spec_adj st (f_bfree st)) = inr adj_avail
  ∧ adj_size ≠ 0%Z
  ∧ trunc (spec_cap adj_size adj_avail) = inr adj_cap.

End DfSpec.

(** A call that comes back, with a value or an exception: it resets
    nothing and does not block. *)
Definition settles {A} (m : M A) : Prop :=
  ∀ w r w', m w ≠ (NoReturn r, w').

(** A call that always returns a value. *)
Definition calm {A} (m : M A) : Prop :=
  ∀ w, ∃ a w', m w = (Returned a, w').

(** The commands whose handler wraps its work in [try/except Exception],
    and [help], which only prints. *)
Definition guarded_commands : list string :=
  ["cat"; "cd"; "df"; "help"; "mkdir"; "rm"; "rmdir"].

(** A line that is empty, or whose first token is a guarded command or
    no command at all. *)
Definition guarded_line (inp : string) : Prop :=
  inp = "" ∨
  ∃ cmd cmd_args, Py.split_ws inp = cmd :: cmd_args
                  ∧ (cmd ∈ guarded_commands ∨ cmd ∉ commands).

(** How often the character [c] occurs in [s]. *)
Fixpoint count_char (c : ascii) (s : string) : nat :=
  match s with
  | EmptyString => 0
  | String a s' => (if bool_decide (c = a) then 1 else 0) + count_char c s'
  end.

(** The state right after [socket.socket()] of line 194. *)
Definition with_new_socket (w : world) : world :=
  with_socks (socks w ++ [Sock true false None []])
    (log (EvSocket (length (socks w))) w).

(** How many [recv] calls the read loop makes on the chunks queued: one
    per chunk up to the first empty one, and the empty read that ends it. *)
Fixpoint reads (chunks : list string) : nat :=
  match chunks with
  | [] => 1
  | c :: rest => if Py.nonempty c then S (reads rest) else 1
  end.

(** What a plain-http fetch of [path] from [host], found at [a], does to
    the outside up to the end of its read loop (lines 194-215). *)
Definition fetch_events (host path : string) (a : addr) (w : world)
  : list event :=
  [EvSocket (length (socks w)); EvGetaddrinfo host 80;
   EvPrint ("DEBUG: http_get scheme(http:) host(" +:+ host
            +:+ ") port(80) path(" +:+ path +:+ ")");
   EvConnect (length (socks w)) a;
   EvSend (length (socks w)) (get_request path host)]
  ++ replicate (reads (respond (net w) a (get_request path host)))
       (EvRecv (length (socks w)) 100).

(** From [w] to [w'] the working directory stayed and no entry of the
    file system changed, except perhaps the one under the key [k]. *)
Definition same_but (k : option string) (w w' : world) : Prop :=
  cwd w' = cwd w ∧ ∀ k', Some k' ≠ k → fs w' !! k' = fs w !! k'.

(** A call that changes at most the entry the path [p] names. *)
Definition touches (p : option string) {A} (m : M A) : Prop :=
  ∀ w, same_but (abspath w <$> p) w (m w).2.

(** The commands that can change the file system or the working
    directory. *)
Definition writers : list string :=
  ["cd"; "mkdir"; "rm"; "rmdir"; "uget"; "wget"].

(* ===================================================================== *)
(** ** Properties *)
(* ===================================================================== *)

(** *** Running the monad *)

Lemma bind_returned {A B} (m : M A) (f : A → M B) w a w' :
  m w = (Returned a, w') → (m ≫= f) w = f a w'.
Proof. intros H. unfold mbind, M_bind. by rewrite H. Qed.

Lemma bind_raised {A B} (m : M A) (f : A → M B) w e w' :
  m w = (Raised e, w') → (m ≫= f) w = (Raised e, w').
Proof. intros H. unfold mbind, M_bind. by rewrite H. Qed.

Lemma bind_noreturn {A B} (m : M A) (f : A → M B) w r w' :
  m w = (NoReturn r, w') → (m ≫= f) w = (NoReturn r, w').
Proof. intros H. unfold mbind, M_bind. by rewrite H. Qed.

Lemma eqb_ne (a b : string) : a ≠ b → (a == b) = false.
Proof. intros H. by apply String.eqb_neq. Qed.

(** A line with a token is not the empty line. *)
Lemma split_ws_nonempty inp cmd args :
  Py.split_ws inp = cmd :: args → Py.nonempty inp = true.
Proof. by destruct inp. Qed.

(** *** Dispatch *)

Section Dispatch.
Context `{FL : PyFloat}.

(** A name outside the chain reaches its last branch. *)
Lemma dispatch_unknown cmd cmd_args w :
  cmd ∉ commands →
  dispatch cmd cmd_args w
  = (Returned Continue, log (EvPrint ("ush: command not found: " +:+ cmd)) w).
Proof.
  intros H. unfold commands in H.
  repeat (apply not_elem_of_cons in H as [? H]).
  unfold dispatch. by rewrite !eqb_ne.
Qed.

(** Only [exit] and [quit] make a turn answer [Break]. *)
Lemma dispatch_break cmd cmd_args w w' :
  dispatch cmd cmd_args w = (Returned Break, w') → cmd = "exit" ∨ cmd = "quit".
Proof.
  unfold dispatch.
  destruct (cmd == "exit") eqn:E1; [apply String.eqb_eq in E1; auto |].
  destruct (cmd == "quit") eqn:E2; [apply String.eqb_eq in E2; auto |].
  simpl. unfold mbind, M_bind.
  match goal with |- context [match ?m w with _ => _ end] => destruct (m w) as [[[]| |] ?] end;
    discriminate.
Qed.

Lemma dispatch_exit cmd_args w :
  dispatch "exit" cmd_args w = (Returned Break, w)
  ∧ dispatch "quit" cmd_args w = (Returned Break, w).
Proof. done. Qed.

(** C9: a line whose first token is none of the command names prints
    exactly [ush: command not found: <cmd>], changes nothing else, and the
    loop goes on with the next line. *)
Theorem unknown_command_reported inp cmd cmd_args rest w :
  Py.split_ws inp = cmd :: cmd_args →
  cmd ∉ commands →
  let w1 := log (EvPrint ("ush: command not found: " +:+ cmd)) w in
  shell_turn inp w = (Returned Continue, w1)
  ∧ shell (inp :: rest) w
    = shell rest (log (EvPrint ("ush: command not found: " +:+ cmd))
                      (log (EvInput "$ " (Some inp)) w)).
Proof.
  intros Hs Hc w1.
  assert (Ht : ∀ w0, shell_turn inp w0
             = (Returned Continue,
                log (EvPrint ("ush: command not found: " +:+ cmd)) w0)).
  { intros w0. unfold shell_turn.
    rewrite (split_ws_nonempty _ _ _ Hs), Hs. simpl.
    by apply dispatch_unknown. }
  split; [apply Ht |].
  simpl. unfold mbind at 1, M_bind at 1. simpl.
  unfold mbind at 1, M_bind at 1. by rewrite Ht.
Qed.

End Dispatch.

Lemma unknown_command_reported_witness :
  Ush.shell_turn (FL := Demo.binary64) "frobnicate -x now" Demo.demo
  = (Returned Continue,
     log (EvPrint "ush: command not found: frobnicate") Demo.demo)
  ∧ Ush.shell (FL := Demo.binary64) ["frobnicate -x now"; "exit"] Demo.demo
    = (Returned tt,
       log (EvInput "$ " (Some "exit"))
         (log (EvPrint "ush: command not found: frobnicate")
            (log (EvInput "$ " (Some "frobnicate -x now")) Demo.demo))).
Proof.
  destruct (unknown_command_reported (FL := Demo.binary64)
              "frobnicate -x now" "frobnicate" ["-x"; "now"] ["exit"] Demo.demo)
    as [H1 H2].
  - reflexivity.
  - unfold commands. rewrite !not_elem_of_cons. repeat split; try discriminate.
    apply not_elem_of_nil.
  - split; [exact H1 | rewrite H2; reflexivity].
Defined.

(** *** Lines without a token *)

Section NoToken.
Context `{FL : PyFloat}.

(** The empty line is skipped in silence. *)
Lemma empty_line_ignored w rest :
  shell_turn "" w = (Returned Continue, w)
  ∧ shell ("" :: rest) w = shell rest (log (EvInput "$ " (Some "")) w).
Proof. done. Qed.

(** C3: a line that is not empty and holds no token (white space only)
    is not ignored: [cmd_args.pop(0)] raises [IndexError], which nothing
    catches, so the loop ends with it and reads no further line. *)
Theorem blank_line_raises inp rest w :
  Py.nonempty inp = true →
  Py.split_ws inp = [] →
  shell_turn inp w = (Raised IndexError, w)
  ∧ shell (inp :: rest) w = (Raised IndexError, log (EvInput "$ " (Some inp)) w).
Proof.
  intros Hn Hs.
  assert (Ht : ∀ w0, shell_turn inp w0 = (Raised IndexError, w0)).
  { intros w0. unfold shell_turn. by rewrite Hn, Hs. }
  split; [apply Ht |].
  simpl. unfold mbind at 1, M_bind at 1. simpl.
  unfold mbind at 1, M_bind at 1. by rewrite Ht.
Qed.

End NoToken.

Lemma blank_line_raises_witness :
  Ush.shell_turn (FL := Demo.binary64) "   " Demo.demo
  = (Raised IndexError, Demo.demo)
  ∧ Ush.shell (FL := Demo.binary64) ["   "; "pwd"] Demo.demo
    = (Raised IndexError, log (EvInput "$ " (Some "   ")) Demo.demo).
Proof.
  apply (blank_line_raises (FL := Demo.binary64) "   " ["pwd"] Demo.demo);
    reflexivity.
Defined.

(** *** URL parsing *)

Section Split.
Import Py.

Lemma append_cons a (s t : string) : String a s +:+ t = String a (s +:+ t).
Proof. done. Qed.

Lemma append_nil_r (s : string) : s +:+ "" = s.
Proof. induction s as [| a s IH]; [done | by rewrite append_cons, IH]. Qed.

Lemma append_assoc (s1 s2 s3 : string) :
  (s1 +:+ s2) +:+ s3 = s1 +:+ (s2 +:+ s3).
Proof.
  induction s1 as [| a s1 IH]; [done | by rewrite !append_cons, IH].
Qed.

Lemma snoc_append cur a s : snoc cur a +:+ s = cur +:+ String a s.
Proof. unfold snoc. by rewrite append_assoc. Qed.

Lemma prefix_nil s : String.prefix "" s = true.
Proof. by destruct s. Qed.

Lemma prefix_char c a s :
  String.prefix (String c "") (String a s) = bool_decide (c = a).
Proof.
  simpl. destruct (Ascii.ascii_dec c a) as [-> | Hne].
  - by rewrite prefix_nil, bool_decide_eq_true_2.
  - by rewrite bool_decide_eq_false_2.
Qed.

(** [c not in a + s]: [c] is not [a] and is not in [s]. *)
Lemma contains_char_cons c a s :
  contains (String c "") (String a s) = false ↔
  c ≠ a ∧ contains (String c "") s = false.
Proof.
  change (contains (String c "") (String a s))
    with (String.prefix (String c "") (String a s) || contains (String c "") s).
  rewrite prefix_char, orb_false_iff, bool_decide_eq_false. tauto.
Qed.

Lemma contains_char_app c s1 s2 :
  contains (String c "") (s1 +:+ String c s2) = true.
Proof.
  induction s1 as [| a s1 IH].
  - change (("" +:+ String c s2)) with (String c s2).
    change (contains (String c "") (String c s2))
      with (String.prefix (String c "") (String c s2) || contains (String c "") s2).
    by rewrite prefix_char, bool_decide_eq_true_2.
  - change (contains (String c "") (String a s1 +:+ String c s2))
      with (String.prefix (String c "") (String a (s1 +:+ String c s2))
            || contains (String c "") (s1 +:+ String c s2)).
    rewrite IH. apply orb_true_r.
Qed.

(** With no split left the rest of the string is taken whole. *)
Lemma split_go_done sep s cur : split_go sep s 0 0 cur = [cur +:+ s].
Proof.
  revert cur. induction s as [| a s IH]; intros cur; simpl.
  - by rewrite append_nil_r.
  - by rewrite IH, snoc_append.
Qed.

(** The first cut is at the first occurrence of the separator. *)
Lemma split_go_char c s1 s2 n cur :
  contains (String c "") s1 = false →
  split_go (String c "") (s1 +:+ String c s2) (S n) 0 cur
  = (cur +:+ s1) :: split_go (String c "") s2 n 0 "".
Proof.
  revert cur. induction s1 as [| a s1 IH]; intros cur Hc.
  - change ("" +:+ String c s2) with (String c s2).
    change (split_go (String c "") (String c s2) (S n) 0 cur)
      with (if String.prefix (String c "") (String c s2)
            then cur :: split_go (String c "") s2 n 0 ""
            else split_go (String c "") s2 (S n) 0 (snoc cur c)).
    by rewrite prefix_char, bool_decide_eq_true_2, append_nil_r.
  - apply contains_char_cons in Hc as [Hne Hc].
    change (split_go (String c "") (String a s1 +:+ String c s2) (S n) 0 cur)
      with (if String.prefix (String c "") (String a (s1 +:+ String c s2))
            then cur :: split_go (String c "") (s1 +:+ String c s2) n 0 ""
            else split_go (String c "") (s1 +:+ String c s2) (S n) 0 (snoc cur a)).
    rewrite prefix_char, bool_decide_eq_false_2 by done.
    by rewrite IH, snoc_append.
Qed.

Lemma split_char c s1 s2 n :
  contains (String c "") s1 = false →
  split (String c "") (S n) (s1 +:+ String c s2)
  = s1 :: split (String c "") n s2.
Proof. intros Hc. unfold split. by rewrite split_go_char. Qed.

End Split.

(** A URL [scheme//host:port/path], none of whose scheme, host and port
    has a slash and whose host has no colon, parses to these four parts;
    the path is kept as it is, further slashes included. *)
Lemma parse_url_with_port scheme host p path w :
  Py.contains "/" scheme = false →
  Py.contains "/" host = false →
  Py.contains ":" host = false →
  Py.contains "/" p = false →
  parse_url (scheme +:+ "//" +:+ host +:+ ":" +:+ p +:+ "/" +:+ path) w
  = (Returned (scheme, host, PortStr p, path), w).
Proof.
  intros Hs Hh Hc Hp. unfold parse_url.
  change (scheme +:+ "//" +:+ host +:+ ":" +:+ p +:+ "/" +:+ path)
    with (scheme +:+ String "/" ("" +:+ String "/"
            (host +:+ String ":" (p +:+ String "/" path)))).
  rewrite (split_char "/" scheme _ 2 Hs).
  rewrite (split_char "/" "" _ 1 eq_refl).
  assert (Hhp : Py.contains "/" (host +:+ String ":" p) = false).
  { clear Hc. induction host as [| a host IH].
    - by apply contains_char_cons.
    - apply contains_char_cons in Hh as [? ?].
      apply (contains_char_cons "/" a (host +:+ String ":" p)). auto. }
  replace (host +:+ String ":" (p +:+ String "/" path))
    with ((host +:+ String ":" p) +:+ String "/" path)
    by (by rewrite append_assoc).
  rewrite (split_char "/" _ _ 0 Hhp).
  unfold Py.split at 1. rewrite split_go_done.
  change ("" +:+ path) with path.
  rewrite contains_char_app, (split_char ":" host p 0 Hc).
  unfold Py.split. by rewrite split_go_done.
Qed.

(** Without a port: [scheme//host/path] leaves the integer 80 of line 192
    as the port, whatever the scheme. *)
Lemma parse_url_without_port scheme host path w :
  Py.contains "/" scheme = false →
  Py.contains "/" host = false →
  Py.contains ":" host = false →
  parse_url (scheme +:+ "//" +:+ host +:+ "/" +:+ path) w
  = (Returned (scheme, host, PortInt 80, path), w).
Proof.
  intros Hs Hh Hc. unfold parse_url.
  change (scheme +:+ "//" +:+ host +:+ "/" +:+ path)
    with (scheme +:+ String "/" ("" +:+ String "/" (host +:+ String "/" path))).
  rewrite (split_char "/" scheme _ 2 Hs).
  rewrite (split_char "/" "" _ 1 eq_refl).
  rewrite (split_char "/" host _ 0 Hh).
  unfold Py.split. rewrite split_go_done.
  change ("" +:+ path) with path. by rewrite Hc.
Qed.

(** *** The fetch, step by step *)

(** After a URL that parses, [http_get] makes its socket and goes on. *)
Lemma http_get_unfold url output_file w scheme host p path :
  parse_url url w = (Returned (scheme, host, p, path), w) →
  http_get url output_file w
  = http_get_on scheme host p path output_file (length (socks w))
      (with_socks (socks w ++ [Sock true false None []])
         (log (EvSocket (length (socks w))) w)).
Proof.
  intros Hp. unfold http_get. by rewrite (bind_returned _ _ _ _ _ Hp).
Qed.

(** [getaddrinfo] answers as the network resolves the name. *)
Lemma getaddrinfo_run host n w :
  socket_getaddrinfo host n w
  = (match resolve (net w) host n with
     | Some a => Returned a
     | None => Raised OSError
     end, log (EvGetaddrinfo host n) w).
Proof.
  unfold socket_getaddrinfo, emit, modify, gets, mbind, M_bind. simpl.
  by destruct (resolve (net w) host n).
Qed.

Lemma sock_recv_run s k n w :
  socks w !! s = Some k →
  sock_recv s n w
  = match sk_rx k with
    | [] => (Returned "", log (EvRecv s n) w)
    | data :: rest =>
        (Returned data,
         with_socks (<[s := Sock (sk_open k) (sk_tls k) (sk_peer k) rest]> (socks w))
           (log (EvRecv s n) w))
    end.
Proof.
  intros Hs.
  unfold sock_recv, emit, modify, the_sock, set_sock, of_option, gets,
    mbind, M_bind; simpl.
  change (socks (log (EvRecv s n) w)) with (socks w).
  rewrite Hs. simpl. by destruct (sk_rx k).
Qed.

(** The read loop of lines 209-215 ends: with one turn per chunk queued
    and one more it returns what was read, and never runs out of fuel.
    It leaves the file system alone. *)
Lemma recv_loop_returns s k response w :
  socks w !! s = Some k →
  ∃ w', recv_loop (S (length (sk_rx k))) s response w
        = (Returned (response +:+ until_empty (sk_rx k)), w')
        ∧ fs w' = fs w ∧ cwd w' = cwd w.
Proof.
  remember (sk_rx k) as chunks eqn:Hc.
  revert k response w Hc.
  induction chunks as [| c rest IH]; intros k response w Hc Hs.
  - eexists. simpl. unfold mbind, M_bind.
    rewrite (sock_recv_run s k 100 w Hs), <- Hc. simpl.
    by rewrite append_nil_r.
  - simpl length.
    change (recv_loop (S (S (length rest))) s response w)
      with ((data ← sock_recv s 100;
             if Py.nonempty data
             then recv_loop (S (length rest)) s (response +:+ data)
             else mret response) w).
    unfold mbind, M_bind. rewrite (sock_recv_run s k 100 w Hs), <- Hc.
    simpl until_empty. destruct (Py.nonempty c).
    + set (k' := Sock (sk_open k) (sk_tls k) (sk_peer k) rest).
      set (w1 := with_socks _ _).
      destruct (IH k' (response +:+ c) w1 eq_refl) as (w' & Hw' & Hfs & Hcwd).
      { unfold w1. simpl. apply list_lookup_insert_eq.
        by eapply lookup_lt_Some. }
      exists w'. by rewrite Hw', append_assoc.
    + eexists. by rewrite append_nil_r.
Qed.

Lemma recv_never_blocks {B} s k (f : string → M B) w :
  socks w !! s = Some k →
  ∃ w', (fuel ← recv_fuel s; response ← recv_loop fuel s ""; f response) w
        = f (until_empty (sk_rx k)) w'
        ∧ fs w' = fs w ∧ cwd w' = cwd w.
Proof.
  intros Hs.
  change ((fuel ← recv_fuel s; response ← recv_loop fuel s ""; f response) w)
    with ((response ← recv_loop
                        (S (length (default [] (sk_rx <$> socks w !! s)))) s "";
           f response) w).
  rewrite Hs. simpl default.
  destruct (recv_loop_returns s k "" w Hs) as (w' & Hw' & ?).
  exists w'. by rewrite (bind_returned _ _ _ _ _ Hw').
Qed.

Lemma sock_connect_run s k a w :
  socks w !! s = Some k →
  reachable (net w) a = true →
  sock_connect s a w
  = (Returned tt,
     with_socks (<[s := Sock (sk_open k) (sk_tls k) (Some a) (sk_rx k)]> (socks w))
       (log (EvConnect s a) w)).
Proof.
  intros Hs Hr.
  unfold sock_connect, emit, modify, the_sock, set_sock, of_option, gets,
    mbind, M_bind; simpl.
  change (socks (log (EvConnect s a) w)) with (socks w).
  rewrite Hs. simpl. by rewrite Hr.
Qed.

Lemma sock_send_run s k a data w :
  socks w !! s = Some k →
  sk_peer k = Some a →
  sock_send s data w
  = (Returned tt,
     with_socks
       (<[s := Sock (sk_open k) (sk_tls k) (sk_peer k)
                 (sk_rx k ++ respond (net w) a data)]> (socks w))
       (log (EvSend s data) w)).
Proof.
  intros Hs Hp.
  unfold sock_send, emit, modify, the_sock, set_sock, of_option, gets,
    mbind, M_bind; simpl.
  change (socks (log (EvSend s data) w)) with (socks w).
  rewrite Hs. simpl. by rewrite Hp.
Qed.

(** An [http] fetch from a host that resolves and accepts the connection
    arrives at line 217 with what the peer sent back to the request of
    line 207, and has not touched the file system on the way. *)
Lemma http_get_reaches_output host path output_file a w :
  Py.contains "/" host = false →
  Py.contains ":" host = false →
  resolve (net w) host 80 = Some a →
  reachable (net w) a = true →
  ∃ w1, http_get ("http://" +:+ host +:+ "/" +:+ path) output_file w
        = handle_response
            (until_empty (respond (net w) a (get_request path host)))
            output_file w1
        ∧ fs w1 = fs w ∧ cwd w1 = cwd w.
Proof.
  intros Hh Hc Hr Hreach. set (request := get_request path host).
  rewrite (http_get_unfold _ _ _ _ _ _ _
             (parse_url_without_port "http:" host path w eq_refl Hh Hc)).
  set (n := length (socks w)). set (w1 := with_socks _ _).
  unfold http_get_on.
  assert (Ho : open_scheme "http:" host (PortInt 80) n w1
               = (Returned (Some (n, PortInt 80, a)),
                  log (EvGetaddrinfo host 80) w1)).
  { change (open_scheme "http:" host (PortInt 80) n w1)
      with ((a ← socket_getaddrinfo host 80;
             mret (Some (n, PortInt 80, a))) w1).
    unfold mbind, M_bind. rewrite getaddrinfo_run.
    change (net w1) with (net w). by rewrite Hr. }
  rewrite (bind_returned _ _ _ _ _ Ho). unfold exchange.
  set (w2 := log (EvGetaddrinfo host 80) w1).
  match goal with
  | |- context [(print ?d ≫= ?f) w2] =>
      rewrite (bind_returned (print d) f w2 tt (log (EvPrint d) w2) eq_refl)
  end.
  set (w3 := log _ w2).
  set (k0 := Sock true false None []).
  assert (H3 : socks w3 !! n = Some k0) by (by apply list_lookup_middle).
  rewrite (bind_returned _ _ _ _ _ (sock_connect_run n k0 a w3 H3 Hreach)).
  set (w4 := with_socks _ _).
  set (k1 := Sock (sk_open k0) (sk_tls k0) (Some a) (sk_rx k0)).
  assert (H4 : socks w4 !! n = Some k1).
  { unfold w4. simpl. apply list_lookup_insert_eq. by eapply lookup_lt_Some. }
  rewrite (bind_returned _ _ _ _ _ (sock_send_run n k1 a request w4 H4 eq_refl)).
  set (w5 := with_socks _ _).
  set (k2 := Sock (sk_open k1) (sk_tls k1) (sk_peer k1)
               (sk_rx k1 ++ respond (net w4) a request)).
  assert (H5 : socks w5 !! n = Some k2).
  { unfold w5. simpl. apply list_lookup_insert_eq. rewrite length_insert.
    by eapply lookup_lt_Some. }
  destruct (recv_never_blocks n k2 (λ r, handle_response r output_file) w5 H5)
    as (w6 & H6 & Hfs & Hcwd).
  exists w6. split; [exact H6 |]. by rewrite Hfs, Hcwd.
Qed.

(** An [http] fetch whose host does not resolve stops at [getaddrinfo]. *)
Lemma http_get_unresolved host path output_file w :
  Py.contains "/" host = false →
  Py.contains ":" host = false →
  resolve (net w) host 80 = None →
  http_get ("http://" +:+ host +:+ "/" +:+ path) output_file w
  = (Raised OSError,
     log (EvGetaddrinfo host 80)
       (with_socks (socks w ++ [Sock true false None []])
          (log (EvSocket (length (socks w))) w))).
Proof.
  intros Hh Hc Hr.
  rewrite (http_get_unfold _ _ _ _ _ _ _
             (parse_url_without_port "http:" host path w eq_refl Hh Hc)).
  set (w1 := with_socks _ _). unfold http_get_on. apply bind_raised.
  change (open_scheme "http:" host (PortInt 80) (length (socks w)) w1)
    with ((a ← socket_getaddrinfo host 80;
           mret (Some (length (socks w), PortInt 80, a))) w1).
  apply bind_raised. rewrite getaddrinfo_run.
  change (net w1) with (net w). by rewrite Hr.
Qed.

(** *** The output stage of the fetch *)

(** Lines 217-219: a reply with a header block has its headers printed and
    its body passed on. *)
Lemma handle_response_split response headers body output_file w :
  Py.split (Py.CRLF +:+ Py.CRLF) 1 response = [headers; body] →
  handle_response response output_file w
  = output_body body output_file
      (log (EvPrint headers) (log (EvPrint "Headers:") w)).
Proof. intros Hs. unfold handle_response. by rewrite Hs. Qed.



(** *** Failures that leave a handler *)

Lemma os_stat_missing p w :
  fs w !! abspath w p = None →
  os_stat p w = (Raised OSError, log (EvStat p) w).
Proof.
  intros H. unfold os_stat, emit, modify, gets, mbind, M_bind. simpl.
  change (abspath (log (EvStat p) w) p) with (abspath w p).
  by rewrite H.
Qed.

Lemma os_stat_present p n w :
  fs w !! abspath w p = Some n →
  os_stat p w = (Returned (Stat (node_type n) (node_size n)), log (EvStat p) w).
Proof.
  intros H. unfold os_stat, emit, modify, gets, mbind, M_bind. simpl.
  change (abspath (log (EvStat p) w) p) with (abspath w p).
  by rewrite H.
Qed.

Lemma os_listdir_missing p w :
  fs w !! abspath w p = None →
  os_listdir (Some p) w = (Raised OSError, log (EvListdir (Some p)) w).
Proof.
  intros H. unfold os_listdir, listing, emit, modify, gets, mbind, M_bind. simpl.
  change (abspath (log (EvListdir (Some p)) w) p) with (abspath w p).
  unfold is_dir. by rewrite H.
Qed.

Lemma parse_url_malformed url w :
  length (Py.split "/" 3 url) ≠ 4 →
  parse_url url w = (Raised ValueError, w).
Proof.
  intros H. unfold parse_url.
  destruct (Py.split "/" 3 url) as [|? [|? [|? [|? [|? ?]]]]]; simpl in *;
    try done.
Qed.

(** [ls -l <path>], lines 111-114, on a path that does not exist. *)
Lemma ls_long_missing f w :
  fs w !! abspath w f = None →
  ush_ls ["-l"; f] w = (Raised OSError, log (EvStat f) w).
Proof.
  intros Hf.
  change (ush_ls ["-l"; f] w)
    with ((st ← os_stat f;
           print (Py.ljust 24 (Py.str_of_int (st_size st)) +:+ " " +:+ f)) w).
  apply bind_raised, os_stat_missing, Hf.
Qed.

Section Escapes.
Context `{FL : PyFloat}.

(** C1: [ush_ls] and [ush_uget] have no [try] of their own.  The
    [OSError] of [os.stat] or [os.listdir] on a path that does not exist,
    the [ValueError] of unpacking a URL with fewer than three slashes and
    the [OSError] of a host that does not resolve leave the handler as
    exceptions: no line is printed for them. *)
Theorem handler_errors_propagate f url host path w :
  fs w !! abspath w f = None →
  length (Py.split "/" 3 url) ≠ 4 →
  Py.contains "/" host = false →
  Py.contains ":" host = false →
  resolve (net w) host 80 = None →
  dispatch "ls" ["-l"; f] w = (Raised OSError, log (EvStat f) w)
  ∧ (f ≠ "-h" → f ≠ "-l" →
     dispatch "ls" [f] w = (Raised OSError, log (EvListdir (Some f)) w))
  ∧ dispatch "uget" [url] w = (Raised ValueError, w)
  ∧ dispatch "uget" ["out"; url] w = (Raised ValueError, w)
  ∧ dispatch "uget" ["http://" +:+ host +:+ "/" +:+ path] w
    = (Raised OSError,
       log (EvGetaddrinfo host 80)
         (with_socks (socks w ++ [Sock true false None []])
            (log (EvSocket (length (socks w))) w))).
Proof.
  intros Hf Hu Hh Hc Hr. repeat split.
  - change (dispatch "ls" ["-l"; f] w)
      with ((ush_ls ["-l"; f];; mret Continue) w).
    apply bind_raised, ls_long_missing, Hf.
  - intros H1 H2.
    change (dispatch "ls" [f] w) with ((ush_ls [f];; mret Continue) w).
    unfold ush_ls. rewrite !eqb_ne by done.
    apply bind_raised, bind_raised. by apply os_listdir_missing.
  - change (dispatch "uget" [url] w)
      with ((http_get url None;; mret Continue) w).
    apply bind_raised, bind_raised. by apply parse_url_malformed.
  - change (dispatch "uget" ["out"; url] w)
      with ((http_get url (Some "out");; mret Continue) w).
    apply bind_raised, bind_raised. by apply parse_url_malformed.
  - change (dispatch "uget" ["http://" +:+ host +:+ "/" +:+ path] w)
      with ((http_get ("http://" +:+ host +:+ "/" +:+ path) None;;
             mret Continue) w).
    by apply bind_raised, http_get_unresolved.
Qed.

(** C4: the loop also ends on a line whose first token is neither [exit]
    nor [quit]: [ls -l] on a path that does not exist raises [OSError]
    through [shell], and the lines after it are never read. *)
Theorem loop_ends_on_handler_error f rest w :
  fs w !! abspath w f = None →
  Py.split_ws ("ls -l " +:+ f) = ["ls"; "-l"; f] →
  shell (("ls -l " +:+ f) :: rest) w
  = (Raised OSError,
     log (EvStat f) (log (EvInput "$ " (Some ("ls -l " +:+ f))) w)).
Proof.
  intros Hf Hs.
  set (w0 := log (EvInput "$ " (Some ("ls -l " +:+ f))) w).
  assert (Ht : shell_turn ("ls -l " +:+ f) w0 = (Raised OSError, log (EvStat f) w0)).
  { unfold shell_turn. rewrite Hs. simpl negb. cbv iota.
    change (dispatch "ls" ["-l"; f] w0)
      with ((ush_ls ["-l"; f];; mret Continue) w0).
    apply bind_raised, ls_long_missing, Hf. }
  change (shell (("ls -l " +:+ f) :: rest) w)
    with ((v ← shell_turn ("ls -l " +:+ f);
           match v with Break => mret tt | Continue => shell rest end) w0).
  by rewrite (bind_raised _ _ _ _ _ Ht).
Qed.

(** The loop leaves through its [break] on [exit] and [quit] only. *)
Lemma turn_breaks_iff inp w :
  (∃ w', shell_turn inp w = (Returned Break, w'))
  ↔ (∃ cmd cmd_args, Py.split_ws inp = cmd :: cmd_args
                     ∧ (cmd = "exit" ∨ cmd = "quit")).
Proof.
  split.
  - intros [w' H]. unfold shell_turn in H.
    destruct (Py.nonempty inp); simpl in H; [| discriminate].
    destruct (Py.split_ws inp) as [|cmd cmd_args]; [discriminate |].
    exists cmd, cmd_args. split; [done |]. by eapply dispatch_break.
  - intros (cmd & cmd_args & Hs & Hc). exists w. unfold shell_turn.
    rewrite (split_ws_nonempty _ _ _ Hs), Hs. simpl.
    by destruct Hc as [-> | ->].
Qed.

(** [reboot] hands over to the reset of the machine, from which nothing
    comes back to the loop. *)
Lemma reboot_resets w :
  shell_turn "reboot" w
  = (NoReturn SoftReset,
     log (EvReset false) (log (EvPrint "Soft reset initiated") w))
  ∧ shell_turn "reboot hard" w
    = (NoReturn HardReset,
       log (EvReset true)
         (log (EvPrint "Hard reset initiated (you will need to reconnect)") w)).
Proof. done. Qed.

End Escapes.

Lemma handler_errors_propagate_witness :
  let w := Demo.demo in
  dispatch (FL := Demo.binary64) "ls" ["-l"; "nofile"] w
    = (Raised OSError, log (EvStat "nofile") w)
  ∧ dispatch (FL := Demo.binary64) "ls" ["nofile"] w
    = (Raised OSError, log (EvListdir (Some "nofile")) w)
  ∧ dispatch (FL := Demo.binary64) "uget" ["example.com"] w
    = (Raised ValueError, w)
  ∧ dispatch (FL := Demo.binary64) "uget" ["out"; "example.com"] w
    = (Raised ValueError, w)
  ∧ dispatch (FL := Demo.binary64) "uget" ["http://nowhere.invalid/x"] w
    = (Raised OSError,
       log (EvGetaddrinfo "nowhere.invalid" 80)
         (with_socks [Sock true false None []] (log (EvSocket 0) w))).
Proof.
  assert (Hf : fs Demo.demo !! abspath Demo.demo "nofile" = None)
    by reflexivity.
  assert (Hu : length (Py.split "/" 3 "example.com") ≠ 4)
    by (simpl; discriminate).
  destruct (handler_errors_propagate (FL := Demo.binary64)
              "nofile" "example.com" "nowhere.invalid" "x" Demo.demo
              Hf Hu eq_refl eq_refl eq_refl) as (H1 & H2 & H3 & H4 & H5).
  refine (conj H1 (conj (H2 _ _) (conj H3 (conj H4 H5)))); discriminate.
Defined.

Lemma loop_ends_on_handler_error_witness :
  Ush.shell (FL := Demo.binary64) ["ls -l nofile"; "pwd"] Demo.demo
  = (Raised OSError,
     log (EvStat "nofile") (log (EvInput "$ " (Some "ls -l nofile")) Demo.demo)).
Proof.
  apply (loop_ends_on_handler_error (FL := Demo.binary64)
           "nofile" ["pwd"] Demo.demo); reflexivity.
Defined.

(** *** The output file *)

Lemma open_w_creates p w :
  fs w !! abspath w p = None →
  is_dir (fs w) (dirname (abspath w p)) = true →
  open_w p w
  = (Returned (abspath w p),
     with_fs (<[abspath w p := File ""]> (fs w)) (log (EvOpen p "w") w)).
Proof.
  intros Hk Hd. unfold open_w, emit, modify, gets, mbind, M_bind. simpl.
  change (abspath (log (EvOpen p "w") w) p) with (abspath w p).
  by rewrite Hk, Hd.
Qed.

Lemma file_write_appends f old data w :
  fs w !! f = Some (File old) →
  file_write f data w
  = (Returned tt,
     with_fs (<[f := File (old +:+ data)]> (fs w)) (log (EvWrite f data) w)).
Proof.
  intros Hf. unfold file_write, emit, modify, gets, mbind, M_bind. simpl.
  by rewrite Hf.
Qed.

Lemma abspath_same_cwd w w' p : cwd w = cwd w' → abspath w p = abspath w' p.
Proof. intros H. unfold abspath. by rewrite H. Qed.

(** Lines 221-230 on an entry that exists. *)
Lemma output_body_existing body out w :
  Py.nonempty body = true →
  Py.nonempty out = true →
  is_Some (fs w !! abspath w out) →
  output_body body (Some out) w
  = (Returned tt,
     with_trace
       (trace w ++ [EvStat out;
                    EvPrint "Error: file {} already exists, will not overwrite"])
       w).
Proof.
  intros Hb Ho [n Hn]. unfold output_body. rewrite Hb, Ho. unfold try_except.
  rewrite (bind_returned _ _ _ _ _ (os_stat_present out n w Hn)).
  unfold print, emit, modify, log, with_trace; simpl.
  by rewrite <- app_assoc.
Qed.

(** Lines 221-230 on a name that is free, in a directory that exists. *)
Lemma output_body_fresh body out w :
  Py.nonempty body = true →
  Py.nonempty out = true →
  fs w !! abspath w out = None →
  is_dir (fs w) (dirname (abspath w out)) = true →
  output_body body (Some out) w
  = (Returned tt,
     with_fs (<[abspath w out := File body]> (fs w))
       (with_trace
          (trace w ++ [EvStat out; EvPrint ("Writing output to " +:+ out);
                       EvOpen out "w"; EvWrite (abspath w out) body;
                       EvClose (abspath w out)])
          w)).
Proof.
  intros Hb Ho Hn Hd. unfold output_body. rewrite Hb, Ho. unfold try_except.
  rewrite (bind_raised _ _ _ _ _ (os_stat_missing out w Hn)).
  set (k := abspath w out) in *.
  set (w1 := log (EvPrint ("Writing output to " +:+ out)) (log (EvStat out) w)).
  change ((print ("Writing output to " +:+ out);;
           of_ ← open_w out; file_write of_ body;; file_close of_)
            (log (EvStat out) w))
    with ((of_ ← open_w out; file_write of_ body;; file_close of_) w1).
  assert (H1 : fs w1 !! abspath w1 out = None) by done.
  assert (H2 : is_dir (fs w1) (dirname (abspath w1 out)) = true) by done.
  rewrite (bind_returned _ _ _ _ _ (open_w_creates out w1 H1 H2)).
  change (abspath w1 out) with k.
  set (w2 := with_fs _ _).
  assert (H3 : fs w2 !! k = Some (File "")) by apply lookup_insert_eq.
  rewrite (bind_returned _ _ _ _ _ (file_write_appends k "" body w2 H3)).
  unfold file_close, emit, modify, log, with_trace, with_fs, w2, w1; simpl.
  rewrite insert_insert_eq. by rewrite <- !app_assoc.
Qed.




(** *** The figures of [df] *)

Section Df.
Context `{FL : PyFloat}.



End Df.



(** *** What a call may do to sockets *)


Section Keeps.
Variable P : event → Prop.

Lemma follows_refl w : follows P w w.
Proof.
  split; [exists []; by rewrite app_nil_r | eauto].
Qed.

Lemma follows_trans w1 w2 w3 :
  follows P w1 w2 → follows P w2 w3 → follows P w1 w3.
Proof.
  intros [(e1 & T1 & F1) S1] [(e2 & T2 & F2) S2]. split.
  - exists (e1 ++ e2). rewrite T2, T1, app_assoc. split; [done |].
    by apply Forall_app.
  - intros s k Hk. destruct (S1 s k Hk) as (k1 & Hk1 & O1).
    destruct (S2 s k1 Hk1) as (k2 & Hk2 & O2). exists k2. split; congruence.
Qed.

Lemma follows_log e w : P e → follows P w (log e w).
Proof. intros He. split; [exists [e]; by repeat constructor | eauto]. Qed.

Lemma follows_with_fs m w : follows P w (with_fs m w).
Proof. split; [exists []; by rewrite app_nil_r | eauto]. Qed.

(** Replacing a socket by one that is open exactly if it was. *)
Lemma follows_set_sock s k k' w :
  socks w !! s = Some k → sk_open k' = sk_open k →
  follows P w (with_socks (<[s := k']> (socks w)) w).
Proof.
  intros Hs Ho. split; [exists []; by rewrite app_nil_r |].
  intros s0 k0 H0. simpl. destruct (decide (s = s0)) as [<- | Hne].
  - exists k'. rewrite list_lookup_insert_eq by (by eapply lookup_lt_Some).
    split; congruence.
  - exists k0. by rewrite list_lookup_insert_ne.
Qed.

(** A new socket at the end. *)
Lemma follows_new_sock k w : follows P w (with_socks (socks w ++ [k]) w).
Proof.
  split; [exists []; by rewrite app_nil_r |].
  intros s0 k0 H0. exists k0. simpl. split; [| done].
  by apply lookup_app_l_Some.
Qed.

Lemma keeps_ret {A} (a : A) : keeps P (mret a).
Proof. intros w. apply follows_refl. Qed.

Lemma keeps_raise {A} e : keeps P (raise (A := A) e).
Proof. intros w. apply follows_refl. Qed.

Lemma keeps_halt {A} r : keeps P (halt (A := A) r).
Proof. intros w. apply follows_refl. Qed.

Lemma keeps_gets {A} (f : world → A) : keeps P (gets f).
Proof. intros w. apply follows_refl. Qed.

Lemma keeps_of_option {A} e (o : option A) : keeps P (of_option e o).
Proof. destruct o; [apply keeps_ret | apply keeps_raise]. Qed.

Lemma keeps_emit e : P e → keeps P (emit e).
Proof. intros He w. by apply follows_log. Qed.

Lemma keeps_with_fs m : keeps P (modify (with_fs m)).
Proof. intros w. apply follows_with_fs. Qed.

Lemma keeps_bind {A B} (m : M A) (f : A → M B) :
  keeps P m → (∀ a, keeps P (f a)) → keeps P (m ≫= f).
Proof.
  intros Hm Hf w. specialize (Hm w). unfold mbind, M_bind.
  destruct (m w) as [[a | e | r] w1]; simpl in *; [| done | done].
  eapply follows_trans; [exact Hm | apply Hf].
Qed.

Lemma keeps_try_except {A} (body handler : M A) :
  keeps P body → keeps P handler → keeps P (try_except body handler).
Proof.
  intros Hb Hh w. specialize (Hb w). unfold try_except.
  destruct (body w) as [[a | e | r] w1]; simpl in *; [done | | done].
  eapply follows_trans; [exact Hb | apply Hh].
Qed.

End Keeps.


Create HintDb keeps.
#[local] Hint Resolve keeps_ret keeps_raise keeps_halt keeps_gets
  keeps_of_option keeps_with_fs : keeps.
#[local] Hint Extern 1 (keeps _ (emit _)) => (apply keeps_emit; exact I) : keeps.
#[local] Hint Extern 1 (keeps _ (print _)) => (apply keeps_emit; exact I) : keeps.

(** Break a program into its calls. *)
Ltac keeps_step :=
  lazymatch goal with
  | |- keeps _ (_ ≫= _) => apply keeps_bind; [| intros ?]
  | |- keeps _ (try_except _ _) => apply keeps_try_except
  | |- keeps _ (if ?b then _ else _) => destruct b
  | |- keeps _ (match ?o with Some _ => _ | None => _ end) => destruct o
  | |- keeps _ _ => solve [auto with keeps]
  end.
Ltac keeps_auto := repeat keeps_step.

Lemma keeps_os_stat p : keeps no_socket_event (os_stat p).
Proof. unfold os_stat. keeps_auto. Qed.

Lemma keeps_open_w p : keeps no_socket_event (open_w p).
Proof.
  unfold open_w. keeps_auto.
  all: try match goal with
    | |- keeps _ (match ?x with _ => _ end) => destruct x
    end; keeps_auto.
Qed.

Lemma keeps_file_write f data : keeps no_socket_event (file_write f data).
Proof.
  unfold file_write. keeps_auto.
  all: try match goal with
    | |- keeps _ (match ?x with _ => _ end) => destruct x
    end; keeps_auto.
Qed.

Lemma keeps_file_close f : keeps no_socket_event (file_close f).
Proof. unfold file_close. keeps_auto. Qed.

Lemma keeps_getaddrinfo host n : keeps no_socket_event (socket_getaddrinfo host n).
Proof. unfold socket_getaddrinfo. keeps_auto. Qed.

(** The socket calls the script makes change a socket's peer, queue or
    TLS flag, never whether it is open. *)
Ltac keeps_sock e :=
  let w := fresh "w" in
  intros w;
  unfold emit, modify, the_sock, set_sock, of_option, gets, mbind, M_bind,
    mret, M_ret, raise; simpl;
  apply (follows_trans _ _ (log e w)); [by apply follows_log |];
  change (socks (log e w)) with (socks w);
  let Hk := fresh "Hk" in
  destruct (socks w !! _) as [? |] eqn:Hk; simpl; [| apply follows_refl];
  repeat match goal with
    | |- context [if ?b then _ else _] => destruct b; simpl
    | |- context [match ?x with _ => _ end] => destruct x; simpl
    end;
  first
    [ apply follows_refl
    | lazymatch goal with
      | Hs : socks _ !! ?s = Some ?k
        |- follows _ ?w0 (with_socks (<[_ := ?k']> _) _) =>
          apply (follows_set_sock _ s k k' w0); [exact Hs | reflexivity]
      end ].

Lemma keeps_ssl_wrap_socket s : keeps no_socket_event (ssl_wrap_socket s).
Proof. unfold ssl_wrap_socket. keeps_sock (EvWrapSocket s). Qed.

Lemma keeps_sock_connect s a : keeps no_socket_event (sock_connect s a).
Proof. unfold sock_connect. keeps_sock (EvConnect s a). Qed.

Lemma keeps_sock_send s data : keeps no_socket_event (sock_send s data).
Proof. unfold sock_send. keeps_sock (EvSend s data). Qed.

Lemma keeps_sock_recv s n : keeps no_socket_event (sock_recv s n).
Proof. unfold sock_recv. keeps_sock (EvRecv s n). Qed.

#[local] Hint Resolve keeps_os_stat keeps_open_w keeps_file_write
  keeps_file_close keeps_getaddrinfo keeps_ssl_wrap_socket keeps_sock_connect
  keeps_sock_send keeps_sock_recv : keeps.

Lemma keeps_recv_loop fuel s response :
  keeps no_socket_event (recv_loop fuel s response).
Proof.
  revert response. induction fuel as [| fuel IH]; intros response; simpl.
  - apply keeps_halt.
  - keeps_auto.
Qed.

Lemma keeps_int_of_port p : keeps no_socket_event (int_of_port p).
Proof. destruct p; simpl; auto with keeps. Qed.

#[local] Hint Resolve keeps_recv_loop keeps_int_of_port : keeps.

Lemma keeps_open_scheme scheme host p s :
  keeps no_socket_event (open_scheme scheme host p s).
Proof. unfold open_scheme. keeps_auto. Qed.

Lemma keeps_output_body body output_file :
  keeps no_socket_event (output_body body output_file).
Proof. unfold output_body. keeps_auto. Qed.

Lemma keeps_handle_response response output_file :
  keeps no_socket_event (handle_response response output_file).
Proof.
  unfold handle_response.
  destruct (Py.split _ 1 response) as [|? [|? [|? ?]]]; auto with keeps.
  pose proof keeps_output_body. keeps_auto.
Qed.

#[local] Hint Resolve keeps_open_scheme keeps_handle_response : keeps.

(** [parse_url] touches nothing. *)
Lemma parse_url_pure url w : (parse_url url w).2 = w.
Proof.
  unfold parse_url.
  destruct (Py.split "/" 3 url) as [|? [|? [|? [|? [|? ?]]]]]; try done.
  destruct (Py.contains ":" _); [| done].
  by destruct (Py.split ":" 1 _) as [|? [|? [|? ?]]].
Qed.

Lemma keeps_exchange scheme host p path output_file s a :
  keeps no_socket_event (exchange scheme host p path output_file s a).
Proof. unfold exchange, recv_fuel. keeps_auto. Qed.

Lemma keeps_http_get_on scheme host p path output_file s :
  keeps no_socket_event (http_get_on scheme host p path output_file s).
Proof.
  unfold http_get_on. keeps_auto.
  match goal with a : nat * port * addr |- _ => destruct a as [[? ?] ?] end.
  apply keeps_exchange.
Qed.

(** C5, as the code has it: [http_get] makes no [close] call.  Whatever
    the way out (body printed or written, [ValueError] of a reply without
    header block, [OSError] of the network, unknown scheme), no socket is
    closed during the call and the socket it made, whenever the URL got
    as far as line 194, is still open at the end. *)
Theorem http_get_never_closes url output_file w :
  let w' := (http_get url output_file w).2 in
  ∃ evs, trace w' = trace w ++ evs
    ∧ (∀ s, EvSockClose s ∉ evs)
    ∧ (∀ s, EvSocket s ∈ evs → sk_open <$> socks w' !! s = Some true)
    ∧ ((∃ r, parse_url url w = (Returned r, w)) →
       EvSocket (length (socks w)) ∈ evs).
Proof.
  intros w'. pose proof (parse_url_pure url w) as Hpure.
  destruct (parse_url url w) as [[[[[scheme host] p] path] | e | r] w0] eqn:Hp;
    simpl in Hpure; subst w0.
  - subst w'. rewrite (http_get_unfold _ _ _ _ _ _ _ Hp).
    set (n := length (socks w)).
    set (w1 := with_socks _ _).
    destruct (keeps_http_get_on scheme host p path output_file n w1)
      as [(evs & Ht & Hall) Hs].
    set (w' := (http_get_on scheme host p path output_file n w1).2) in *.
    exists (EvSocket n :: evs). split; [| split; [| split]].
    + rewrite Ht. unfold w1, log. simpl. by rewrite <- app_assoc.
    + intros s [[=] | Hin]%elem_of_cons.
      by apply (proj1 (Forall_forall _ _) Hall) in Hin.
    + intros s [[= ->] | Hin]%elem_of_cons.
      * destruct (Hs n (Sock true false None [])) as (k' & -> & Ho).
        { unfold w1. simpl. by apply list_lookup_middle. }
        simpl. by rewrite Ho.
      * by apply (proj1 (Forall_forall _ _) Hall) in Hin.
    + intros _. apply elem_of_cons. by left.
  - exists []. subst w'. unfold http_get.
    rewrite (bind_raised _ _ _ _ _ Hp). simpl. rewrite app_nil_r.
    repeat split; try (intros s Hs; by apply elem_of_nil in Hs).
    by intros [? [=]].
  - exists []. subst w'. unfold http_get.
    rewrite (bind_noreturn _ _ _ _ _ Hp). simpl. rewrite app_nil_r.
    repeat split; try (intros s Hs; by apply elem_of_nil in Hs).
    by intros [? [=]].
Qed.

(** C5 as worded fails on every way out; on the demo host a fetch that
    prints its body, one whose reply has no header block and one of an
    unknown scheme each leave socket 0 open. *)
Lemma http_get_socket_left_open :
  let ends url := (http_get url None Demo.demo) in
  ((ends "http://example.com/index.html").1 = Returned tt
   ∧ sk_open <$> socks (ends "http://example.com/index.html").2 !! 0 = Some true)
  ∧ ((ends "http://example.com/raw").1 = Raised ValueError
     ∧ sk_open <$> socks (ends "http://example.com/raw").2 !! 0 = Some true)
  ∧ ((ends "ftp://example.com/x").1 = Returned tt
     ∧ sk_open <$> socks (ends "ftp://example.com/x").2 !! 0 = Some true).
Proof. repeat apply conj; by vm_compute. Qed.

(** *** Scheme and port *)

Lemma bind_trace {A B} P (m : M A) (f : A → M B) w :
  (∀ a, keeps P (f a)) →
  ∃ evs, trace ((m ≫= f) w).2 = trace (m w).2 ++ evs.
Proof.
  intros Hf. unfold mbind, M_bind.
  destruct (m w) as [[a | e | r] w1]; simpl;
    [| exists []; by rewrite app_nil_r ..].
  destruct (Hf a w1) as [(evs & Ht & _) _]. by exists evs.
Qed.

Lemma ssl_wrap_run s k w :
  socks w !! s = Some k →
  tls_wraps (net w) = true →
  ssl_wrap_socket s w
  = (Returned s,
     with_socks (<[s := Sock (sk_open k) true (sk_peer k) (sk_rx k)]> (socks w))
       (log (EvWrapSocket s) w)).
Proof.
  intros Hs Ht.
  unfold ssl_wrap_socket, emit, modify, the_sock, set_sock, of_option, gets,
    mbind, M_bind; simpl.
  change (socks (log (EvWrapSocket s) w)) with (socks w).
  rewrite Hs. simpl. by rewrite Ht.
Qed.

Lemma sock_connect_trace s a w :
  trace (sock_connect s a w).2 = trace w ++ [EvConnect s a].
Proof.
  unfold sock_connect, emit, modify, the_sock, set_sock, of_option, gets,
    mbind, M_bind; simpl.
  change (socks (log (EvConnect s a) w)) with (socks w).
  destruct (socks w !! s); simpl; [| done].
  by destruct (reachable _ a).
Qed.

(** The [https] branch, lines 196-199, entered with the port 80 of
    line 192: [not port] is false and the lookup is for port 80. *)
Lemma open_scheme_https_80 host s w :
  open_scheme "https:" host (PortInt 80) s w
  = match resolve (net w) host 80 with
    | Some a => (s0 ← ssl_wrap_socket s; mret (Some (s0, PortInt 80, a)))
                  (log (EvGetaddrinfo host 80) w)
    | None => (Raised OSError, log (EvGetaddrinfo host 80) w)
    end.
Proof.
  change (open_scheme "https:" host (PortInt 80) s w)
    with ((a ← socket_getaddrinfo host 80;
           s0 ← ssl_wrap_socket s; mret (Some (s0, PortInt 80, a))) w).
  unfold mbind at 1, M_bind at 1. rewrite getaddrinfo_run.
  by destruct (resolve (net w) host 80).
Qed.

(** C2: for an [https] URL whose host part has no colon the port is 80,
    not 443.  Line 192 has set [port = 80], so [not port] on line 196 is
    false: the fetch makes its socket and asks [getaddrinfo] for port 80;
    when the name resolves and the socket is wrapped, the DEBUG line
    shows [port(80)] and the connection goes to the address found for
    port 80. *)
Theorem https_without_port_uses_80 host path output_file w :
  Py.contains "/" host = false →
  Py.contains ":" host = false →
  let url := "https://" +:+ host +:+ "/" +:+ path in
  let n := length (socks w) in
  (∃ evs, trace (http_get url output_file w).2
          = trace w ++ EvSocket n :: EvGetaddrinfo host 80 :: evs)
  ∧ (∀ a, resolve (net w) host 80 = Some a → tls_wraps (net w) = true →
       ∃ evs, trace (http_get url output_file w).2
              = trace w
                ++ [EvSocket n; EvGetaddrinfo host 80; EvWrapSocket n;
                    EvPrint ("DEBUG: http_get scheme(https:) host(" +:+ host
                             +:+ ") port(80) path(" +:+ path +:+ ")");
                    EvConnect n a]
                ++ evs).
Proof.
  intros Hh Hc url n. subst url.
  rewrite (http_get_unfold _ _ _ _ _ _ _
             (parse_url_without_port "https:" host path w eq_refl Hh Hc)).
  fold n. set (w1 := with_socks _ _).
  assert (Hw1 : trace w1 = trace w ++ [EvSocket n]) by done.
  unfold http_get_on.
  set (K := λ r : option (nat * port * addr), _).
  assert (HK : ∀ r, keeps no_socket_event (K r)).
  { intros [[[s p] a] |]; [apply keeps_exchange | apply keeps_ret]. }
  split.
  - destruct (bind_trace _ (open_scheme "https:" host (PortInt 80) n) K w1 HK)
      as [evs2 H2].
    rewrite H2, open_scheme_https_80. change (net w1) with (net w).
    destruct (resolve (net w) host 80) as [a |].
    + destruct (keeps_bind no_socket_event (ssl_wrap_socket n)
                  (λ s0, mret (Some (s0, PortInt 80, a)))
                  (keeps_ssl_wrap_socket n) (λ _, keeps_ret _ _)
                  (log (EvGetaddrinfo host 80) w1))
        as [(evs1 & H1 & _) _].
      exists (evs1 ++ evs2). rewrite H1.
      change (trace (log (EvGetaddrinfo host 80) w1))
        with (trace w1 ++ [EvGetaddrinfo host 80]).
      rewrite Hw1. by rewrite <- !app_assoc.
    + exists evs2.
      change (trace (Raised OSError, log (EvGetaddrinfo host 80) w1).2)
        with (trace w1 ++ [EvGetaddrinfo host 80]).
      rewrite Hw1. by rewrite <- !app_assoc.
  - intros a Hr Ht.
    assert (Ho : open_scheme "https:" host (PortInt 80) n w1
                 = (Returned (Some (n, PortInt 80, a)),
                    with_socks (<[n := Sock true true None []]> (socks w1))
                      (log (EvWrapSocket n) (log (EvGetaddrinfo host 80) w1)))).
    { rewrite open_scheme_https_80. change (net w1) with (net w). rewrite Hr.
      assert (Hn : socks (log (EvGetaddrinfo host 80) w1) !! n
                   = Some (Sock true false None []))
        by (by apply list_lookup_middle).
      by rewrite (bind_returned _ _ _ _ _ (ssl_wrap_run n _ _ Hn Ht)). }
    rewrite (bind_returned _ _ _ _ _ Ho). set (w3 := with_socks _ _).
    assert (Hw3 : trace w3 = trace w ++ [EvSocket n; EvGetaddrinfo host 80;
                                         EvWrapSocket n]).
    { change (trace w3)
        with ((trace w1 ++ [EvGetaddrinfo host 80]) ++ [EvWrapSocket n]).
      rewrite Hw1. by rewrite <- !app_assoc. }
    unfold K, exchange.
    match goal with
    | |- context [(print ?d ≫= ?f) w3] =>
        rewrite (bind_returned (print d) f w3 tt (log (EvPrint d) w3) eq_refl)
    end.
    match goal with
    | |- context [(sock_connect n a ≫= ?f) ?w4] =>
        destruct (bind_trace no_socket_event (sock_connect n a) f w4) as [evs H]
    end.
    { intros _. unfold recv_fuel. keeps_auto. }
    exists evs. rewrite H, sock_connect_trace.
    match goal with
    | |- context [trace (log ?e w3)] =>
        change (trace (log e w3)) with (trace w3 ++ [e])
    end.
    rewrite Hw3. by rewrite <- !app_assoc.
Qed.

Lemma https_without_port_uses_80_witness :
  let w' := (http_get "https://example.com/index.html" None Demo.demo).2 in
  (∃ evs, trace w' = [] ++ EvSocket 0 :: EvGetaddrinfo "example.com" 80 :: evs)
  ∧ (∃ evs, trace w'
            = [] ++ [EvSocket 0; EvGetaddrinfo "example.com" 80; EvWrapSocket 0;
                     EvPrint ("DEBUG: http_get scheme(https:) host("
                              +:+ "example.com" +:+ ") port(80) path("
                              +:+ "index.html" +:+ ")");
                     EvConnect 0 ("93.184.216.34", 80%Z)]
                 ++ evs).
Proof.
  destruct (https_without_port_uses_80 "example.com" "index.html" None
              Demo.demo eq_refl eq_refl) as [H1 H2].
  exact (conj H1 (H2 ("93.184.216.34", 80%Z) eq_refl eq_refl)).
Defined.

(** The whole trace of that fetch on the demo host. *)
Example https_fetch_trace :
  trace (http_get "https://example.com/index.html" None Demo.demo).2
  = [EvSocket 0; EvGetaddrinfo "example.com" 80; EvWrapSocket 0;
     EvPrint "DEBUG: http_get scheme(https:) host(example.com) port(80) path(index.html)";
     EvConnect 0 ("93.184.216.34", 80%Z);
     EvSend 0 ("GET /index.html HTTP/1.0" +:+ Py.CRLF +:+ "Host: example.com"
               +:+ Py.CRLF +:+ Py.CRLF);
     EvRecv 0 100; EvRecv 0 100; EvRecv 0 100;
     EvPrint "Headers:"; EvPrint Demo.ok_headers;
     EvPrint "Body:"; EvPrint "hello"].
Proof. reflexivity. Qed.

(** Whatever follows it, a lookup shows first in the trace. *)
Lemma lookup_first {B} host n (k : addr → M B) w :
  (∀ a, keeps no_socket_event (k a)) →
  ∃ evs, trace ((a ← socket_getaddrinfo host n; k a) w).2
         = trace w ++ EvGetaddrinfo host n :: evs.
Proof.
  intros Hk. unfold mbind, M_bind. rewrite getaddrinfo_run.
  destruct (resolve (net w) host n) as [a |]; [| by exists []].
  destruct (Hk a (log (EvGetaddrinfo host n) w)) as [(evs & Ht & _) _].
  exists evs. rewrite Ht. unfold log. simpl. by rewrite <- app_assoc.
Qed.

(** C8: [https://example.com:8443/a/b] parses to the scheme [https] (kept
    with the colon the split leaves on it), the host [example.com], the
    port [8443] and the path [a/b], which has no leading slash; the
    scheme is accepted in that form, and the fetch looks [example.com] up
    for port 8443. *)
Theorem parse_url_example output_file w :
  parse_url "https://example.com:8443/a/b" w
  = (Returned ("https" +:+ ":", "example.com", PortStr "8443", "a/b"), w)
  ∧ int_of_port (PortStr "8443") w = (Returned 8443%Z, w)
  ∧ String.prefix "/" "a/b" = false
  ∧ ∃ evs, trace (http_get "https://example.com:8443/a/b" output_file w).2
           = trace w ++ EvSocket (length (socks w))
                     :: EvGetaddrinfo "example.com" 8443 :: evs.
Proof.
  assert (Hp : parse_url "https://example.com:8443/a/b" w
               = (Returned ("https:", "example.com", PortStr "8443", "a/b"), w)).
  { apply (parse_url_with_port "https:" "example.com" "8443" "a/b" w);
      reflexivity. }
  split; [exact Hp |]. split; [reflexivity |]. split; [reflexivity |].
  rewrite (http_get_unfold _ _ _ _ _ _ _ Hp).
  set (n := length (socks w)). set (w1 := with_socks _ _).
  unfold http_get_on.
  set (K := λ r : option (nat * port * addr), _).
  assert (HK : ∀ r, keeps no_socket_event (K r)).
  { intros [[[s p] a] |]; [apply keeps_exchange | apply keeps_ret]. }
  destruct (bind_trace _ (open_scheme "https:" "example.com" (PortStr "8443") n)
              K w1 HK) as [evs2 H2].
  rewrite H2.
  change (open_scheme "https:" "example.com" (PortStr "8443") n w1)
    with ((a ← socket_getaddrinfo "example.com" 8443;
           s0 ← ssl_wrap_socket n; mret (Some (s0, PortStr "8443", a))) w1).
  destruct (lookup_first "example.com" 8443
              (λ a, s0 ← ssl_wrap_socket n; mret (Some (s0, PortStr "8443", a)))
              w1) as [evs1 H1].
  { intros a. keeps_auto. }
  rewrite H1. exists (evs1 ++ evs2).
  change (trace w1) with (trace w ++ [EvSocket n]).
  by rewrite <- !app_assoc.
Qed.

(** The other cases of the port, for comparison: 80 for [http] without a
    port; the 443 of line 197 is reached by an empty port ([host:]) only. *)
Lemma default_ports w :
  parse_url "http://example.com/x" w
  = (Returned ("http:", "example.com", PortInt 80, "x"), w)
  ∧ (∃ evs, trace (open_scheme "http:" "example.com" (PortInt 80) 0 w).2
            = trace w ++ EvGetaddrinfo "example.com" 80 :: evs)
  ∧ parse_url "https://example.com:/x" w
    = (Returned ("https:", "example.com", PortStr "", "x"), w)
  ∧ (∃ evs, trace (open_scheme "https:" "example.com" (PortStr "") 0 w).2
            = trace w ++ EvGetaddrinfo "example.com" 443 :: evs).
Proof.
  split; [done |]. split; [| split; [done |]].
  - change (open_scheme "http:" "example.com" (PortInt 80) 0 w)
      with ((a ← socket_getaddrinfo "example.com" 80;
             mret (Some (0, PortInt 80, a))) w).
    unfold mbind, M_bind. rewrite getaddrinfo_run.
    destruct (resolve _ _ _); simpl; by exists [].
  - change (open_scheme "https:" "example.com" (PortStr "") 0 w)
      with ((a ← socket_getaddrinfo "example.com" 443;
             s0 ← ssl_wrap_socket 0; mret (Some (s0, PortInt 443, a))) w).
    unfold mbind at 1, M_bind at 1.
    rewrite getaddrinfo_run.
    destruct (resolve _ _ _) as [a |]; simpl; [| by exists []].
    destruct (keeps_bind no_socket_event (ssl_wrap_socket 0)
                (λ s0, mret (Some (s0, PortInt 443, a)))
                (keeps_ssl_wrap_socket 0) (λ _, keeps_ret _ _)
                (log (EvGetaddrinfo "example.com" 443) w))
      as [(evs & Ht & _) _].
    exists evs. rewrite Ht. unfold log. simpl. by rewrite <- app_assoc.
Qed.

(* ===================================================================== *)
(** ** Further properties of the handlers and of the loop *)
(* ===================================================================== *)

(** *** Handlers that cannot fail *)

Lemma settles_ret {A} (a : A) : settles (mret a).
Proof. by intros w r w'. Qed.

Lemma settles_raise {A} e : settles (raise (A := A) e).
Proof. by intros w r w'. Qed.

Lemma settles_gets {A} (f : world → A) : settles (gets f).
Proof. by intros w r w'. Qed.

Lemma settles_modify f : settles (modify f).
Proof. by intros w r w'. Qed.

Lemma settles_of_option {A} e (o : option A) : settles (of_option e o).
Proof. destruct o; [apply settles_ret | apply settles_raise]. Qed.

Lemma settles_bind {A B} (m : M A) (f : A → M B) :
  settles m → (∀ a, settles (f a)) → settles (m ≫= f).
Proof.
  intros Hm Hf w r w'. unfold mbind, M_bind.
  destruct (m w) as [[a | e | r0] w1] eqn:E; [apply Hf | done |].
  by destruct (Hm w r0 w1).
Qed.

Lemma settles_try_except {A} (body handler : M A) :
  settles body → settles handler → settles (try_except body handler).
Proof.
  intros Hb Hh w r w'. unfold try_except.
  destruct (body w) as [[a | e | r0] w1] eqn:E; [done | apply Hh |].
  by destruct (Hb w r0 w1).
Qed.

Lemma settles_finally {A} (body : M A) cleanup :
  settles body → settles cleanup → settles (finally body cleanup).
Proof.
  intros Hb Hc w r w'. unfold finally.
  destruct (body w) as [[a | e | r0] w1] eqn:E.
  - apply settles_bind; [done | intros; apply settles_ret].
  - apply settles_bind; [done | intros; apply settles_raise].
  - by destruct (Hb w r0 w1).
Qed.

Create HintDb settles.
#[local] Hint Resolve settles_ret settles_raise settles_gets settles_modify
  settles_of_option : settles.
#[local] Hint Extern 1 (settles (emit _)) => apply settles_modify : settles.
#[local] Hint Extern 1 (settles (print _)) => apply settles_modify : settles.

Ltac settles_step :=
  lazymatch goal with
  | |- settles (_ ≫= _) => apply settles_bind; [| intros ?]
  | |- settles (try_except _ _) => apply settles_try_except
  | |- settles (finally _ _) => apply settles_finally
  | |- settles (if ?b then _ else _) => destruct b
  | |- settles (match ?x with _ => _ end) => destruct x
  | |- settles _ => solve [auto with settles]
  end.
Ltac settles_auto := repeat settles_step.

Lemma calm_print s : calm (print s).
Proof. intros w. by eexists _, _. Qed.

(** A [try] whose handler only prints always returns. *)
Lemma calm_try_print (body : M unit) s :
  settles body → calm (try_except body (print s)).
Proof.
  intros Hb w. unfold try_except.
  destruct (body w) as [[[] | e | r] w1] eqn:E.
  - by eexists _, _.
  - apply calm_print.
  - by destruct (Hb w r w1).
Qed.

Section Guarded.
Context `{FL : PyFloat}.

Lemma settles_df_figures st : settles (df_figures st).
Proof.
  unfold df_figures, int_div_int, int_div_float, math_trunc. settles_auto.
Qed.

Lemma calm_ush_cat args : calm (ush_cat args).
Proof.
  destruct args as [| path rest]; [apply calm_print |].
  apply calm_try_print. unfold open_r, file_read, file_close. settles_auto.
Qed.

Lemma calm_ush_cd args : calm (ush_cd args).
Proof.
  destruct args as [| path rest]; [apply calm_print |].
  apply calm_try_print. unfold os_chdir. settles_auto.
Qed.

Lemma calm_ush_df args : calm (ush_df args).
Proof.
  unfold ush_df. apply calm_try_print.
  pose proof settles_df_figures. unfold os_statvfs. settles_auto.
Qed.

Lemma calm_ush_mkdir args : calm (ush_mkdir args).
Proof.
  unfold ush_mkdir. destruct (wants_usage args); [apply calm_print |].
  apply calm_try_print. unfold os_mkdir. settles_auto.
Qed.

Lemma calm_ush_rm args : calm (ush_rm args).
Proof.
  unfold ush_rm. destruct (wants_usage args); [apply calm_print |].
  apply calm_try_print. unfold os_remove. settles_auto.
Qed.

Lemma calm_ush_rmdir args : calm (ush_rmdir args).
Proof.
  unfold ush_rmdir. destruct (wants_usage args); [apply calm_print |].
  apply calm_try_print. unfold os_rmdir. settles_auto.
Qed.

(** A guarded command always hands the loop back. *)
Lemma dispatch_guarded cmd cmd_args w :
  cmd ∈ guarded_commands →
  ∃ w', dispatch cmd cmd_args w = (Returned Continue, w').
Proof.
  intros H. unfold guarded_commands in H.
  assert (Hrun : ∀ h : M unit, calm h →
            ∃ w', (h;; mret Continue) w = (Returned Continue, w')).
  { intros h Hh. destruct (Hh w) as ([] & w' & Hw). exists w'.
    by rewrite (bind_returned _ _ _ _ _ Hw). }
  repeat (apply elem_of_cons in H as [-> | H]);
    [apply (Hrun (ush_cat cmd_args)), calm_ush_cat
    |apply (Hrun (ush_cd cmd_args)), calm_ush_cd
    |apply (Hrun (ush_df cmd_args)), calm_ush_df
    |apply (Hrun ush_help), calm_print
    |apply (Hrun (ush_mkdir cmd_args)), calm_ush_mkdir
    |apply (Hrun (ush_rm cmd_args)), calm_ush_rm
    |apply (Hrun (ush_rmdir cmd_args)), calm_ush_rmdir
    |by apply elem_of_nil in H].
Qed.

Lemma guarded_turn inp w :
  guarded_line inp → ∃ w', shell_turn inp w = (Returned Continue, w').
Proof.
  intros [-> | (cmd & cmd_args & Hs & Hc)]; [by exists w |].
  unfold shell_turn. rewrite (split_ws_nonempty _ _ _ Hs), Hs. simpl.
  destruct Hc as [Hg | Hu]; [by apply dispatch_guarded |].
  eexists. by apply dispatch_unknown.
Qed.

(** Whatever their arguments and whatever the state of the host, [cat],
    [cd], [df], [mkdir], [rm] and [rmdir] return: no exception leaves
    them and they reset nothing. *)
Theorem guarded_handlers_return args w :
  (∃ w', ush_cat args w = (Returned tt, w'))
  ∧ (∃ w', ush_cd args w = (Returned tt, w'))
  ∧ (∃ w', ush_df args w = (Returned tt, w'))
  ∧ (∃ w', ush_mkdir args w = (Returned tt, w'))
  ∧ (∃ w', ush_rm args w = (Returned tt, w'))
  ∧ (∃ w', ush_rmdir args w = (Returned tt, w')).
Proof.
  assert (H : ∀ h : M unit, calm h → ∃ w', h w = (Returned tt, w')).
  { intros h Hh. destruct (Hh w) as ([] & w' & Hw). by exists w'. }
  repeat apply conj; apply H;
    auto using calm_ush_cat, calm_ush_cd, calm_ush_df, calm_ush_mkdir,
      calm_ush_rm, calm_ush_rmdir.
Qed.

(** A session of guarded lines never ends the loop by itself: typed to
    its end it stops on [EOFError] of [input], and followed by [exit] it
    returns, without reading what comes after. *)
Theorem guarded_session lines w :
  Forall guarded_line lines →
  ∃ w1, shell lines w = (Raised EOFError, log (EvInput "$ " None) w1)
        ∧ ∀ rest, shell (lines ++ "exit" :: rest) w
                  = (Returned tt, log (EvInput "$ " (Some "exit")) w1).
Proof.
  intros H. revert w. induction H as [| inp lines Hg _ IH]; intros w.
  - by exists w.
  - destruct (guarded_turn inp (log (EvInput "$ " (Some inp)) w) Hg)
      as [w0 Hw0].
    destruct (IH w0) as (w1 & He & Hx). exists w1.
    assert (Hs : ∀ l, shell (inp :: l) w = shell l w0).
    { intros l.
      change (shell (inp :: l) w)
        with ((v ← shell_turn inp;
               match v with Break => mret tt | Continue => shell l end)
                (log (EvInput "$ " (Some inp)) w)).
      by rewrite (bind_returned _ _ _ _ _ Hw0). }
    split; [by rewrite Hs |]. intros rest.
    change ((inp :: lines) ++ "exit" :: rest)
      with (inp :: (lines ++ "exit" :: rest)).
    by rewrite Hs.
Qed.

End Guarded.

(** Closed instances of [guarded_line]. *)
Ltac guarded_cmd :=
  right; eexists _, _; split; [reflexivity |]; left; unfold guarded_commands;
  solve [repeat first [apply list_elem_of_here | apply list_elem_of_further]].
Ltac unknown_cmd :=
  right; eexists _, _; split; [reflexivity |]; right; unfold commands;
  rewrite !not_elem_of_cons; repeat split; try discriminate;
  apply not_elem_of_nil.

Lemma guarded_session_witness :
  ∃ w1, shell (FL := Demo.binary64)
          ["cat nofile"; "rm nofile"; ""; "frobnicate"; "df /proc"; "cd /lib"]
          Demo.demo
        = (Raised EOFError, log (EvInput "$ " None) w1)
        ∧ ∀ rest, shell (FL := Demo.binary64)
                    (["cat nofile"; "rm nofile"; ""; "frobnicate"; "df /proc";
                      "cd /lib"] ++ "exit" :: rest) Demo.demo
                  = (Returned tt, log (EvInput "$ " (Some "exit")) w1).
Proof.
  refine (guarded_session (FL := Demo.binary64)
            ["cat nofile"; "rm nofile"; ""; "frobnicate"; "df /proc"; "cd /lib"]
            Demo.demo _).
  refine (Forall_cons_2 _ _ _ _ (Forall_cons_2 _ _ _ _ (Forall_cons_2 _ _ _ _
            (Forall_cons_2 _ _ _ _ (Forall_cons_2 _ _ _ _
               (Forall_cons_2 _ _ _ _ (Forall_nil_2 _))))))).
  - guarded_cmd.
  - guarded_cmd.
  - by left.
  - unknown_cmd.
  - guarded_cmd.
  - guarded_cmd.
Defined.

(** *** Leaving the loop *)

Section Leaving.
Context `{FL : PyFloat}.

(** [exit] and [quit] end the loop at once, whatever follows them on the
    line: nothing is printed and no later line is read. *)
Theorem exit_stops_reading inp cmd cmd_args rest w :
  Py.split_ws inp = cmd :: cmd_args →
  cmd = "exit" ∨ cmd = "quit" →
  shell (inp :: rest) w = (Returned tt, log (EvInput "$ " (Some inp)) w).
Proof.
  intros Hs Hc.
  assert (Ht : ∀ w0, shell_turn inp w0 = (Returned Break, w0)).
  { intros w0. unfold shell_turn.
    rewrite (split_ws_nonempty _ _ _ Hs), Hs. simpl.
    by destruct Hc as [-> | ->]. }
  change (shell (inp :: rest) w)
    with ((v ← shell_turn inp;
           match v with Break => mret tt | Continue => shell rest end)
            (log (EvInput "$ " (Some inp)) w)).
  by rewrite (bind_returned _ _ _ _ _ (Ht _)).
Qed.

End Leaving.

Lemma exit_stops_reading_witness :
  shell (FL := Demo.binary64) ["quit now"; "rm /boot.py"] Demo.demo
  = (Returned tt, log (EvInput "$ " (Some "quit now")) Demo.demo).
Proof.
  apply (exit_stops_reading (FL := Demo.binary64) "quit now" "quit" ["now"]
           ["rm /boot.py"] Demo.demo eq_refl).
  by right.
Defined.

(** *** Which URLs parse *)

Lemma contains_char_count c s :
  Py.contains (String c "") s = true ↔ 0 < count_char c s.
Proof.
  induction s as [| a s IH].
  - simpl. split; [done | lia].
  - change (Py.contains (String c "") (String a s))
      with (String.prefix (String c "") (String a s)
            || Py.contains (String c "") s).
    rewrite prefix_char, orb_true_iff, IH. simpl.
    case_bool_decide; split; try lia; naive_solver.
Qed.

(** Splitting at a character gives one part more than there were cuts. *)
Lemma split_go_length c s n cur :
  length (Py.split_go (String c "") s n 0 cur) = S (min n (count_char c s)).
Proof.
  revert n cur. induction s as [| a s IH]; intros n cur.
  - simpl. by rewrite Nat.min_0_r.
  - destruct n as [| n].
    + change (Py.split_go (String c "") (String a s) 0 0 cur)
        with (Py.split_go (String c "") s 0 0 (Py.snoc cur a)).
      by rewrite IH.
    + change (Py.split_go (String c "") (String a s) (S n) 0 cur)
        with (if String.prefix (String c "") (String a s)
              then cur :: Py.split_go (String c "") s n 0 ""
              else Py.split_go (String c "") s (S n) 0 (Py.snoc cur a)).
      rewrite prefix_char. simpl count_char.
      case_bool_decide; simpl length; rewrite IH; simpl; lia.
Qed.

Lemma split_length c s n :
  length (Py.split (String c "") n s) = S (min n (count_char c s)).
Proof. apply split_go_length. Qed.

(** [parse_url] validates nothing but the number of slashes: a URL with
    at least three of them parses, whatever else it holds, and one with
    fewer raises [ValueError]; neither touches the state. *)
Theorem parse_url_three_slashes url w :
  (3 ≤ count_char "/" url →
   ∃ scheme host p path, parse_url url w = (Returned (scheme, host, p, path), w))
  ∧ (count_char "/" url < 3 → parse_url url w = (Raised ValueError, w)).
Proof.
  split.
  - intros H3. unfold parse_url.
    pose proof (split_length "/" url 3) as Hl.
    rewrite Nat.min_l in Hl by done.
    destruct (Py.split "/" 3 url) as [|scheme [|x [|rawhost [|path [|? ?]]]]];
      try done.
    destruct (Py.contains ":" rawhost) eqn:Hc; [| by eexists _, _, _, _].
    apply contains_char_count in Hc.
    pose proof (split_length ":" rawhost 1) as Hl2.
    rewrite Nat.min_l in Hl2 by lia.
    destruct (Py.split ":" 1 rawhost) as [|host [|p [|? ?]]]; try done.
    by eexists _, _, _, _.
  - intros H3. apply parse_url_malformed.
    rewrite split_length. lia.
Qed.

(** What the parts are: a URL written [scheme//host:port/path] or
    [scheme//host/path] gives back its scheme, host and path unchanged
    (the path with every further slash), the port as its text, or the
    integer 80 when there is none. *)
Theorem parse_url_parts scheme host p path w :
  Py.contains "/" scheme = false →
  Py.contains "/" host = false →
  Py.contains ":" host = false →
  Py.contains "/" p = false →
  parse_url (scheme +:+ "//" +:+ host +:+ ":" +:+ p +:+ "/" +:+ path) w
  = (Returned (scheme, host, PortStr p, path), w)
  ∧ parse_url (scheme +:+ "//" +:+ host +:+ "/" +:+ path) w
    = (Returned (scheme, host, PortInt 80, path), w).
Proof.
  intros Hs Hh Hc Hp. split.
  - by apply parse_url_with_port.
  - by apply parse_url_without_port.
Qed.

Lemma parse_url_parts_witness :
  parse_url "gopher://10.0.0.7:70x/a//b/" Demo.demo
  = (Returned ("gopher:", "10.0.0.7", PortStr "70x", "a//b/"), Demo.demo)
  ∧ parse_url "gopher://10.0.0.7/a//b/" Demo.demo
    = (Returned ("gopher:", "10.0.0.7", PortInt 80, "a//b/"), Demo.demo).
Proof.
  apply (parse_url_parts "gopher:" "10.0.0.7" "70x" "a//b/" Demo.demo);
    reflexivity.
Defined.

(** *** Scheme and port, in general *)

Lemma int_of_str_nonempty s n : Py.int_of_str s = Some n → Py.nonempty s = true.
Proof. by destruct s. Qed.

(** The scheme branch with a port text that reads as the integer [n]. *)
Lemma open_scheme_explicit scheme host ptxt n s w :
  scheme = "http:" ∨ scheme = "https:" →
  Py.int_of_str ptxt = Some n →
  open_scheme scheme host (PortStr ptxt) s w
  = (a ← socket_getaddrinfo host n;
     if scheme == "https:"
     then s0 ← ssl_wrap_socket s; mret (Some (s0, PortStr ptxt, a))
     else mret (Some (s, PortStr ptxt, a))) w.
Proof.
  intros Hs Hn. pose proof (int_of_str_nonempty _ _ Hn) as He.
  destruct Hs as [-> | ->]; unfold open_scheme, port_falsy, int_of_port.
  - change ("http:" == "https:") with false.
    change ("http:" == "http:") with true. cbv iota.
    by rewrite Hn.
  - change ("https:" == "https:") with true. rewrite He. cbn [negb].
    cbv iota zeta. by rewrite Hn.
Qed.

(** The scheme branch with a port text that is no integer. *)
Lemma open_scheme_bad_port scheme host ptxt s w :
  scheme = "http:" ∨ scheme = "https:" →
  Py.int_of_str ptxt = None →
  (ptxt = "" → scheme = "http:") →
  open_scheme scheme host (PortStr ptxt) s w = (Raised ValueError, w).
Proof.
  intros Hs Hn He.
  destruct Hs as [-> | ->]; unfold open_scheme, port_falsy, int_of_port.
  - change ("http:" == "https:") with false.
    change ("http:" == "http:") with true. cbv iota.
    by rewrite Hn.
  - change ("https:" == "https:") with true. cbv iota.
    destruct ptxt as [| c ptxt]; [by specialize (He eq_refl) |].
    change (Py.nonempty (String c ptxt)) with true. cbn [negb].
    cbv iota zeta. by rewrite Hn.
Qed.

(** After the socket, what [open_scheme] does first shows first. *)
Lemma http_get_lookup url scheme host p path output_file n w
    (k : addr → M (option (nat * port * addr))) :
  parse_url url w = (Returned (scheme, host, p, path), w) →
  open_scheme scheme host p (length (socks w)) (with_new_socket w)
  = (a ← socket_getaddrinfo host n; k a) (with_new_socket w) →
  (∀ a, keeps no_socket_event (k a)) →
  ∃ evs, trace (http_get url output_file w).2
         = trace w ++ EvSocket (length (socks w)) :: EvGetaddrinfo host n :: evs.
Proof.
  intros Hp Ho Hk. rewrite (http_get_unfold _ _ _ _ _ _ _ Hp).
  fold (with_new_socket w). unfold http_get_on.
  set (K := λ r : option (nat * port * addr), _).
  assert (HK : ∀ r, keeps no_socket_event (K r)).
  { intros [[[s p'] a] |]; [apply keeps_exchange | apply keeps_ret]. }
  destruct (bind_trace _ (open_scheme scheme host p (length (socks w))) K
              (with_new_socket w) HK) as [evs2 H2].
  rewrite H2, Ho.
  destruct (lookup_first host n k (with_new_socket w) Hk) as [evs1 H1].
  rewrite H1. exists (evs1 ++ evs2).
  change (trace (with_new_socket w))
    with (trace w ++ [EvSocket (length (socks w))]).
  by rewrite <- !app_assoc.
Qed.



(** A scheme other than [http:] and [https:] (in exactly this spelling)
    stops the fetch after its socket is made: one message is printed, the
    network is not used, and [http_get] returns. *)
Theorem unknown_scheme_aborts url scheme host p path output_file w :
  parse_url url w = (Returned (scheme, host, p, path), w) →
  scheme ≠ "https:" →
  scheme ≠ "http:" →
  http_get url output_file w
  = (Returned tt,
     log (EvPrint ("Error: unknown scheme: " +:+ scheme)) (with_new_socket w)).
Proof.
  intros Hp H1 H2. rewrite (http_get_unfold _ _ _ _ _ _ _ Hp).
  fold (with_new_socket w). unfold http_get_on, open_scheme.
  by rewrite !eqb_ne.
Qed.

Lemma unknown_scheme_aborts_witness :
  http_get "HTTP://example.com/x" (Some "out.txt") Demo.demo
  = (Returned tt,
     log (EvPrint "Error: unknown scheme: HTTP:") (with_new_socket Demo.demo)).
Proof.
  apply (unknown_scheme_aborts "HTTP://example.com/x" "HTTP:" "example.com"
           (PortInt 80) "x" (Some "out.txt") Demo.demo eq_refl); discriminate.
Defined.

(** *** A fetch to the console *)

Section SplitAny.
Import Py.

Lemma prefix_app x s : String.prefix x s = true → ∃ r, s = x +:+ r.
Proof.
  revert s. induction x as [| c x IH]; intros s H; [by exists s |].
  destruct s as [| a s]; [done |]. simpl in H.
  destruct (Ascii.ascii_dec c a) as [-> | ?]; [| done].
  destruct (IH s H) as [r ->]. by exists r.
Qed.

(** Where the separator does not occur nothing is cut. *)
Lemma split_go_no_sep sep s n cur :
  contains sep s = false → split_go sep s n 0 cur = [cur +:+ s].
Proof.
  revert cur. induction s as [| a s IH]; intros cur Hc.
  - simpl. by rewrite append_nil_r.
  - change (contains sep (String a s))
      with (String.prefix sep (String a s) || contains sep s) in Hc.
    apply orb_false_iff in Hc as [Hp Hc].
    destruct n as [| n].
    + by rewrite split_go_done.
    + change (split_go sep (String a s) (S n) 0 cur)
        with (if String.prefix sep (String a s)
              then cur :: split_go sep s n (String.length sep - 1) ""
              else split_go sep s (S n) 0 (snoc cur a)).
      by rewrite Hp, IH, snoc_append.
Qed.

(** Dropping the rest of a separator, then taking what is left. *)
Lemma split_go_skip sep x r cur :
  split_go sep (x +:+ r) 0 (String.length x) cur = [cur +:+ r].
Proof.
  induction x as [| c x IH]; [apply split_go_done |].
  destruct r as [| b r]; simpl String.length; rewrite append_cons; apply IH.
Qed.

(** A cut in two loses nothing: the parts and the separator make up the
    string again. *)
Lemma split_go_once sep s cur h b :
  sep ≠ "" →
  split_go sep s 1 0 cur = [h; b] → cur +:+ s = h +:+ sep +:+ b.
Proof.
  intros Hsep. revert cur. induction s as [| a s IH]; intros cur H; [done |].
  change (split_go sep (String a s) 1 0 cur)
    with (if String.prefix sep (String a s)
          then cur :: split_go sep s 0 (String.length sep - 1) ""
          else split_go sep s 1 0 (snoc cur a)) in H.
  destruct (String.prefix sep (String a s)) eqn:Hp.
  - destruct (prefix_app _ _ Hp) as [r Hr].
    destruct sep as [| c sep]; [done |].
    rewrite append_cons in Hr. injection Hr as -> ->.
    change (String.length (String c sep) - 1) with (String.length sep - 0) in H.
    rewrite Nat.sub_0_r, split_go_skip in H.
    by injection H as <- <-.
  - rewrite <- (IH _ H). by rewrite snoc_append.
Qed.

End SplitAny.

Lemma recv_loop_trace s k response w :
  socks w !! s = Some k →
  ∃ w', recv_loop (S (length (sk_rx k))) s response w
        = (Returned (response +:+ until_empty (sk_rx k)), w')
        ∧ fs w' = fs w ∧ cwd w' = cwd w ∧ net w' = net w
        ∧ trace w' = trace w ++ replicate (reads (sk_rx k)) (EvRecv s 100).
Proof.
  remember (sk_rx k) as chunks eqn:Hc.
  revert k response w Hc.
  induction chunks as [| c rest IH]; intros k response w Hc Hs.
  - eexists. simpl recv_loop. unfold mbind, M_bind.
    rewrite (sock_recv_run s k 100 w Hs), <- Hc. simpl.
    by rewrite append_nil_r.
  - simpl length.
    change (recv_loop (S (S (length rest))) s response w)
      with ((data ← sock_recv s 100;
             if Py.nonempty data
             then recv_loop (S (length rest)) s (response +:+ data)
             else mret response) w).
    unfold mbind, M_bind. rewrite (sock_recv_run s k 100 w Hs), <- Hc.
    simpl until_empty. simpl reads. destruct (Py.nonempty c).
    + set (k' := Sock (sk_open k) (sk_tls k) (sk_peer k) rest).
      set (w1 := with_socks _ _).
      destruct (IH k' (response +:+ c) w1 eq_refl)
        as (w' & Hw' & Hfs & Hcwd & Hnet & Htr).
      { unfold w1. simpl. apply list_lookup_insert_eq.
        by eapply lookup_lt_Some. }
      exists w'. rewrite Hw', append_assoc, Htr.
      repeat split; try done.
      change (trace w1) with (trace w ++ [EvRecv s 100]).
      by rewrite <- app_assoc.
    + eexists. by rewrite append_nil_r.
Qed.

(** The way of a plain-http fetch to line 217, call by call. *)
Lemma http_get_to_output host path output_file a w :
  Py.contains "/" host = false →
  Py.contains ":" host = false →
  resolve (net w) host 80 = Some a →
  reachable (net w) a = true →
  ∃ w1, http_get ("http://" +:+ host +:+ "/" +:+ path) output_file w
        = handle_response
            (until_empty (respond (net w) a (get_request path host)))
            output_file w1
        ∧ fs w1 = fs w ∧ cwd w1 = cwd w ∧ net w1 = net w
        ∧ trace w1 = trace w ++ fetch_events host path a w.
Proof.
  intros Hh Hc Hr Hreach. set (request := get_request path host).
  rewrite (http_get_unfold _ _ _ _ _ _ _
             (parse_url_without_port "http:" host path w eq_refl Hh Hc)).
  set (n := length (socks w)). set (w1 := with_socks _ _).
  unfold http_get_on.
  assert (Ho : open_scheme "http:" host (PortInt 80) n w1
               = (Returned (Some (n, PortInt 80, a)),
                  log (EvGetaddrinfo host 80) w1)).
  { change (open_scheme "http:" host (PortInt 80) n w1)
      with ((a ← socket_getaddrinfo host 80;
             mret (Some (n, PortInt 80, a))) w1).
    unfold mbind, M_bind. rewrite getaddrinfo_run.
    change (net w1) with (net w). by rewrite Hr. }
  rewrite (bind_returned _ _ _ _ _ Ho). unfold exchange.
  set (w2 := log (EvGetaddrinfo host 80) w1).
  match goal with
  | |- context [(print ?d ≫= ?f) w2] =>
      rewrite (bind_returned (print d) f w2 tt (log (EvPrint d) w2) eq_refl)
  end.
  set (w3 := log _ w2).
  set (k0 := Sock true false None []).
  assert (H3 : socks w3 !! n = Some k0) by (by apply list_lookup_middle).
  rewrite (bind_returned _ _ _ _ _ (sock_connect_run n k0 a w3 H3 Hreach)).
  set (w4 := with_socks _ _).
  set (k1 := Sock (sk_open k0) (sk_tls k0) (Some a) (sk_rx k0)).
  assert (H4 : socks w4 !! n = Some k1).
  { unfold w4. simpl. apply list_lookup_insert_eq. by eapply lookup_lt_Some. }
  rewrite (bind_returned _ _ _ _ _ (sock_send_run n k1 a request w4 H4 eq_refl)).
  set (w5 := with_socks _ _).
  set (k2 := Sock (sk_open k1) (sk_tls k1) (sk_peer k1)
               (sk_rx k1 ++ respond (net w4) a request)).
  assert (H5 : socks w5 !! n = Some k2).
  { unfold w5. simpl. apply list_lookup_insert_eq. rewrite length_insert.
    by eapply lookup_lt_Some. }
  change ((fuel ← recv_fuel n; response ← recv_loop fuel n "";
           handle_response response output_file) w5)
    with ((response ← recv_loop
                        (S (length (default [] (sk_rx <$> socks w5 !! n))))
                        n "";
           handle_response response output_file) w5).
  rewrite H5. simpl default.
  destruct (recv_loop_trace n k2 "" w5 H5)
    as (w6 & H6 & Hfs & Hcwd & Hnet & Htr).
  exists w6. rewrite (bind_returned _ _ _ _ _ H6).
  split; [done |]. split; [by rewrite Hfs |]. split; [by rewrite Hcwd |].
  split; [by rewrite Hnet |].
  rewrite Htr. unfold fetch_events. fold n request.
  change (trace w5)
    with (((((trace w ++ [EvSocket n]) ++ [EvGetaddrinfo host 80])
            ++ [EvPrint ("DEBUG: http_get scheme(" +:+ "http:" +:+ ") host("
                         +:+ host +:+ ") port(" +:+ str_of_port (PortInt 80)
                         +:+ ") path(" +:+ path +:+ ")")])
           ++ [EvConnect n a]) ++ [EvSend n request]).
  by rewrite <- !app_assoc.
Qed.



(** A reply without a blank line has no header block: the unpacking of
    line 217 raises [ValueError] out of [http_get], after the whole reply
    was read and before anything of it is printed or written. *)
Theorem reply_without_blank_line host path output_file a w :
  Py.contains "/" host = false →
  Py.contains ":" host = false →
  resolve (net w) host 80 = Some a →
  reachable (net w) a = true →
  Py.contains (Py.CRLF +:+ Py.CRLF)
    (until_empty (respond (net w) a (get_request path host))) = false →
  ∃ w', http_get ("http://" +:+ host +:+ "/" +:+ path) output_file w
        = (Raised ValueError, w')
        ∧ fs w' = fs w
        ∧ trace w' = trace w ++ fetch_events host path a w.
Proof.
  intros Hh Hc Hr Hreach Hn.
  destruct (http_get_to_output host path output_file a w Hh Hc Hr Hreach)
    as (w1 & Hget & Hfs & Hcwd & _ & Htr).
  exists w1. rewrite Hget. unfold handle_response, Py.split.
  by rewrite (split_go_no_sep _ _ _ _ Hn).
Qed.

Lemma reply_without_blank_line_witness :
  ∃ w', http_get "http://example.com/raw" (Some "out.txt") Demo.demo
        = (Raised ValueError, w')
        ∧ fs w' = fs Demo.demo
        ∧ trace w'
          = trace Demo.demo
            ++ fetch_events "example.com" "raw" ("93.184.216.34", 80%Z) Demo.demo.
Proof.
  exact (reply_without_blank_line "example.com" "raw" (Some "out.txt")
           ("93.184.216.34", 80%Z) Demo.demo
           eq_refl eq_refl eq_refl eq_refl eq_refl).
Defined.

(** *** What a command leaves alone *)

Lemma same_but_refl k w : same_but k w w.
Proof. by split. Qed.

Lemma same_but_none w w' : same_but None w w' ↔ cwd w' = cwd w ∧ fs w' = fs w.
Proof.
  split; intros [Hc Hf]; (split; [done |]).
  - apply map_eq. intros k. by apply Hf.
  - intros k _. by rewrite Hf.
Qed.

Section Touches.
Variable p : option string.

Lemma touches_trans w1 w2 w3 :
  same_but (abspath w1 <$> p) w1 w2 → same_but (abspath w2 <$> p) w2 w3 →
  same_but (abspath w1 <$> p) w1 w3.
Proof.
  intros [C1 F1] [C2 F2]. split; [congruence |].
  intros k Hk. rewrite F2, F1; [done | done |].
  destruct p as [q |]; [| done]. simpl in *.
  by rewrite (abspath_same_cwd w2 w1 q C1).
Qed.

Lemma touches_ret {A} (a : A) : touches p (mret a).
Proof. intros w. apply same_but_refl. Qed.

Lemma touches_raise {A} e : touches p (raise (A := A) e).
Proof. intros w. apply same_but_refl. Qed.

Lemma touches_halt {A} r : touches p (halt (A := A) r).
Proof. intros w. apply same_but_refl. Qed.

Lemma touches_gets {A} (f : world → A) : touches p (gets f).
Proof. intros w. apply same_but_refl. Qed.

Lemma touches_of_option {A} e (o : option A) : touches p (of_option e o).
Proof. destruct o; [apply touches_ret | apply touches_raise]. Qed.

(** A change of the state that is none of the file system. *)
Lemma touches_modify f :
  (∀ w, cwd (f w) = cwd w ∧ fs (f w) = fs w) → touches p (modify f).
Proof.
  intros Hf w. destruct (Hf w) as [Hc Hfs]. split; [done |].
  intros k _. simpl. by rewrite Hfs.
Qed.

Lemma touches_bind {A B} (m : M A) (f : A → M B) :
  touches p m → (∀ a, touches p (f a)) → touches p (m ≫= f).
Proof.
  intros Hm Hf w. specialize (Hm w). unfold mbind, M_bind.
  destruct (m w) as [[a | e | r] w1]; simpl in *; [| done | done].
  eapply touches_trans; [exact Hm | apply Hf].
Qed.

Lemma touches_try_except {A} (body handler : M A) :
  touches p body → touches p handler → touches p (try_except body handler).
Proof.
  intros Hb Hh w. specialize (Hb w). unfold try_except.
  destruct (body w) as [[a | e | r] w1]; simpl in *; [done | | done].
  eapply touches_trans; [exact Hb | apply Hh].
Qed.

Lemma touches_finally {A} (body : M A) cleanup :
  touches p body → touches p cleanup → touches p (finally body cleanup).
Proof.
  intros Hb Hc w. specialize (Hb w). unfold finally.
  destruct (body w) as [[a | e | r] w1]; simpl in *; [| | done].
  - eapply touches_trans; [exact Hb |].
    apply touches_bind; [done | intros; apply touches_ret].
  - eapply touches_trans; [exact Hb |].
    apply touches_bind; [done | intros; apply touches_raise].
Qed.

Lemma touches_for_each {A} (l : list A) (body : A → M unit) :
  (∀ x, touches p (body x)) → touches p (for_each l body).
Proof.
  intros Hb. induction l as [| x l IH]; simpl; [apply touches_ret |].
  apply touches_bind; [apply Hb | by intros _].
Qed.

End Touches.

Lemma touches_weaken {A} p (m : M A) : touches None m → touches p m.
Proof.
  intros Hm w. destruct (Hm w) as [Hc Hf]. split; [done |].
  intros k _. by apply Hf.
Qed.

Create HintDb touches.
#[local] Hint Resolve touches_ret touches_raise touches_halt touches_gets
  touches_of_option : touches.
#[local] Hint Extern 1 (touches _ (emit _)) =>
  (apply touches_modify; intros; split; reflexivity) : touches.
#[local] Hint Extern 1 (touches _ (print _)) =>
  (apply touches_modify; intros; split; reflexivity) : touches.
#[local] Hint Extern 1 (touches _ (print_list _)) =>
  (apply touches_modify; intros; split; reflexivity) : touches.
#[local] Hint Extern 2 (touches _ (modify _)) =>
  (apply touches_modify; intros; split; reflexivity) : touches.

Ltac touches_step :=
  lazymatch goal with
  | |- touches _ (_ ≫= _) => apply touches_bind; [| intros ?]
  | |- touches _ (try_except _ _) => apply touches_try_except
  | |- touches _ (finally _ _) => apply touches_finally
  | |- touches _ (for_each _ _) => apply touches_for_each; intros ?
  | |- touches _ (if ?b then _ else _) => destruct b
  | |- touches _ (match ?x with _ => _ end) => destruct x
  | |- touches _ _ => solve [auto with touches]
  end.
Ltac touches_auto := repeat touches_step.

(** The calls that only look. *)
Lemma touches_readers p :
  (∀ q, touches p (os_stat q))
  ∧ (∀ q, touches p (os_statvfs q))
  ∧ (∀ q, touches p (os_listdir q))
  ∧ touches p os_ilistdir
  ∧ touches p os_getcwd
  ∧ (∀ q, touches p (open_r q))
  ∧ (∀ f, touches p (file_read f))
  ∧ (∀ f, touches p (file_close f))
  ∧ (∀ a, touches p (mem_info a))
  ∧ touches p qstr_info
  ∧ touches p machine_reset
  ∧ touches p machine_soft_reset.
Proof.
  repeat apply conj; intros;
    unfold os_stat, os_statvfs, os_listdir, os_ilistdir, listing, os_getcwd,
      open_r, file_read, file_close, mem_info, qstr_info, machine_reset,
      machine_soft_reset;
    touches_auto.
Qed.

(** The socket calls change sockets only. *)
Lemma touches_sockets p :
  touches p socket_socket
  ∧ (∀ h n, touches p (socket_getaddrinfo h n))
  ∧ (∀ s, touches p (ssl_wrap_socket s))
  ∧ (∀ s a, touches p (sock_connect s a))
  ∧ (∀ s d, touches p (sock_send s d))
  ∧ (∀ s n, touches p (sock_recv s n)).
Proof.
  repeat apply conj; intros;
    unfold socket_socket, socket_getaddrinfo, ssl_wrap_socket, sock_connect,
      sock_send, sock_recv, the_sock, set_sock;
    touches_auto.
Qed.

Lemma touches_recv_loop p fuel s response :
  touches p (recv_loop fuel s response).
Proof.
  revert response. induction fuel as [| fuel IH]; intros response; simpl.
  - apply touches_halt.
  - destruct (touches_sockets p) as (_ & _ & _ & _ & _ & Hr).
    apply touches_bind; [apply Hr |]. intros data.
    destruct (Py.nonempty data); [apply IH | apply touches_ret].
Qed.

(** The calls that write: each changes the entry under its own path, if
    any. *)
Ltac touches_writer :=
  let w := fresh "w" in
  intros w;
  unfold os_mkdir, os_remove, os_rmdir, emit, modify, gets, raise, mbind,
    M_bind, mret, M_ret; simpl;
  repeat match goal with
    | |- context [abspath (log ?e w) ?p] =>
        change (abspath (log e w) p) with (abspath w p)
    end;
  repeat match goal with
    | |- context [match ?x with _ => _ end] => destruct x; simpl
    end;
  (split; [done |]); intros ? ?; simpl;
  first [ done
        | apply lookup_insert_ne; naive_solver
        | apply lookup_delete_ne; naive_solver ].

Lemma touches_os_mkdir p : touches (Some p) (os_mkdir p).
Proof. touches_writer. Qed.

Lemma touches_os_remove p : touches (Some p) (os_remove p).
Proof. touches_writer. Qed.

Lemma touches_os_rmdir p : touches (Some p) (os_rmdir p).
Proof. touches_writer. Qed.

(** [os.chdir] changes the working directory, nothing of the file system. *)
Lemma os_chdir_fs p w : fs (os_chdir p w).2 = fs w.
Proof.
  unfold os_chdir, emit, modify, gets, raise, mbind, M_bind; simpl.
  by destruct (is_dir _ _).
Qed.

(** Opening for writing gives the file under the path's key and changes
    that entry at most. *)
Lemma open_w_key p w :
  same_but (Some (abspath w p)) w (open_w p w).2
  ∧ ∀ f w', open_w p w = (Returned f, w') → f = abspath w p.
Proof.
  unfold open_w, emit, modify, gets, raise, mbind, M_bind, mret, M_ret; simpl.
  change (abspath (log (EvOpen p "w") w) p) with (abspath w p).
  assert (Hi : ∀ n, same_but (Some (abspath w p)) w
                      (with_fs (<[abspath w p := n]> (fs w))
                         (log (EvOpen p "w") w))).
  { intros n. split; [done |]. intros k Hk. simpl.
    apply lookup_insert_ne. naive_solver. }
  destruct (fs w !! abspath w p) as [[data | | t] |]; simpl;
    [| | | destruct (is_dir _ _); simpl];
    (split; [first [apply Hi | by split] | intros f w' [=]; done]).
Qed.

Lemma file_write_key f data w : same_but (Some f) w (file_write f data w).2.
Proof.
  unfold file_write, emit, modify, gets, raise, mbind, M_bind; simpl.
  destruct (fs w !! f) as [[old | | t] |]; simpl; (split; [done |]);
    intros k Hk; simpl; [| done ..].
  apply lookup_insert_ne. naive_solver.
Qed.

(** Lines 228-230: the file written is the one the output path names. *)
Lemma touches_write_out out body :
  touches (Some out)
    (of_ ← open_w out; file_write of_ body;; file_close of_).
Proof.
  intros w. destruct (open_w_key out w) as [Ho Hk].
  unfold mbind at 1, M_bind at 1.
  destruct (open_w out w) as [[f | e | r] w1] eqn:E; simpl in *; [| done ..].
  rewrite (Hk f w1 eq_refl).
  assert (Hc : abspath w1 out = abspath w out)
    by (apply abspath_same_cwd, Ho).
  eapply (touches_trans (Some out)); [exact Ho |]. simpl. rewrite Hc.
  unfold mbind, M_bind.
  pose proof (file_write_key (abspath w out) body w1) as Hw.
  destruct (file_write (abspath w out) body w1) as [[[] | e | r] w2];
    simpl in *; done.
Qed.

Lemma touches_output_body body output_file :
  touches output_file (output_body body output_file).
Proof.
  unfold output_body. destruct (touches_readers output_file) as (Hs & _).
  destruct (Py.nonempty body); [| touches_auto].
  destruct output_file as [out |]; [| touches_auto].
  destruct (Py.nonempty out); [| touches_auto].
  apply touches_try_except; [touches_auto; apply Hs |].
  apply touches_bind; [touches_auto |]. intros _. apply touches_write_out.
Qed.

Lemma touches_http_get url output_file :
  touches output_file (http_get url output_file).
Proof.
  destruct (touches_sockets output_file) as (H1 & H2 & H3 & H4 & H5 & H6).
  pose proof (touches_recv_loop output_file) as H7.
  pose proof (touches_output_body) as H8.
  unfold http_get, parse_url. apply touches_bind.
  { touches_auto. }
  intros [[[scheme host] p0] path]. apply touches_bind; [done |]. intros s.
  unfold http_get_on, open_scheme, int_of_port. apply touches_bind.
  { touches_auto; auto. }
  intros [[[s0 p1] a] |]; [| apply touches_ret].
  unfold exchange, recv_fuel, handle_response. touches_auto; auto.
Qed.

Section Frame.
Context `{FL : PyFloat}.

Lemma touches_df_figures p st : touches p (df_figures st).
Proof.
  unfold df_figures, int_div_int, int_div_float, math_trunc. touches_auto.
Qed.

(** The handlers that only look and print. *)
Lemma touches_lookers p args :
  touches p (ush_cat args)
  ∧ touches p (ush_df args)
  ∧ touches p ush_help
  ∧ touches p (ush_ls args)
  ∧ touches p (ush_meminfo args)
  ∧ touches p ush_pwd
  ∧ touches p (ush_reboot args).
Proof.
  destruct (touches_readers p)
    as (R1 & R2 & R3 & R4 & R5 & R6 & R7 & R8 & R9 & R10 & R11 & R12).
  pose proof (touches_df_figures p) as Hdf.
  repeat apply conj;
    unfold ush_cat, ush_df, ush_help, ush_ls, ls_entry, ush_meminfo, ush_pwd,
      ush_reboot;
    touches_auto; auto.
Qed.

(** Only [cd], [mkdir], [rm], [rmdir], [uget] and [wget] can change the
    file system or the working directory: whatever the arguments, and
    whether it returns, raises or resets, any other command (or
    non-command) leaves both exactly as they were. *)
Theorem only_writers_write cmd cmd_args w :
  cmd ∉ writers →
  fs (dispatch cmd cmd_args w).2 = fs w
  ∧ cwd (dispatch cmd cmd_args w).2 = cwd w.
Proof.
  intros H. unfold writers in H.
  repeat (apply not_elem_of_cons in H as [? H]).
  destruct (touches_lookers None cmd_args)
    as (L1 & L2 & L3 & L4 & L5 & L6 & L7).
  assert (Ht : touches None (dispatch cmd cmd_args)).
  { unfold dispatch.
    rewrite (eqb_ne cmd "cd"), (eqb_ne cmd "mkdir"), (eqb_ne cmd "rm"),
      (eqb_ne cmd "rmdir"), (eqb_ne cmd "uget"), (eqb_ne cmd "wget") by done.
    cbn [orb]. touches_auto; auto. }
  destruct (proj1 (same_but_none _ _) (Ht w)) as [Hc Hf]. by split.
Qed.


End Frame.

Lemma only_writers_write_witness :
  fs (dispatch (FL := Demo.binary64) "ls" ["-l"; "nofile"] Demo.demo).2
  = fs Demo.demo
  ∧ cwd (dispatch (FL := Demo.binary64) "ls" ["-l"; "nofile"] Demo.demo).2
    = cwd Demo.demo.
Proof.
  apply (only_writers_write (FL := Demo.binary64) "ls" ["-l"; "nofile"]
           Demo.demo).
  unfold writers. rewrite !not_elem_of_cons.
  repeat split; try discriminate. apply not_elem_of_nil.
Defined.

(** *** Resetting the machine *)

(** What [reboot] does is settled by its first argument alone: [-h] or
    [help] prints the usage and returns; [hard] resets the machine, and
    the soft reset of lines 162-163 is never reached; anything else, or
    no argument, is a soft reset.  Apart from the usage case nothing
    comes back to the caller. *)
Theorem reboot_outcomes args w :
  (arg0 args = "-h" ∨ arg0 args = "help" →
   ush_reboot args w = (Returned tt, log (EvPrint reboot_usage) w))
  ∧ (arg0 args = "hard" →
     ush_reboot args w
     = (NoReturn HardReset,
        log (EvReset true)
          (log (EvPrint "Hard reset initiated (you will need to reconnect)")
             w)))
  ∧ ((arg0 args ∉ ["-h"; "help"; "hard"]) →
     ush_reboot args w
     = (NoReturn SoftReset,
        log (EvReset false) (log (EvPrint "Soft reset initiated") w))).
Proof.
  destruct args as [| a0 rest]; simpl.
  - repeat split; [intros [|]; discriminate | discriminate].
  - split; [| split].
    + by intros [-> | ->].
    + by intros ->.
    + intros H. repeat (apply not_elem_of_cons in H as [? H]).
      unfold ush_reboot.
      by rewrite (eqb_ne a0 "-h"), (eqb_ne a0 "help"), (eqb_ne a0 "hard").
Qed.

(** *** The table of [df] *)

Lemma os_statvfs_run p w :
  os_statvfs p w
  = (match fs w !! abspath w p with
     | Some _ => Returned (mounts w (abspath w p))
     | None => Raised OSError
     end, log (EvStatvfs p) w).
Proof.
  unfold os_statvfs, emit, modify, gets, raise, mbind, M_bind. simpl.
  change (abspath (log (EvStatvfs p) w) p) with (abspath w p).
  by destruct (fs w !! abspath w p).
Qed.

Section DfShape.
Context `{FL : PyFloat}.

(** Lines 68-77 change nothing; they give figures with used = size -
    avail and a size that is not zero, or raise. *)
Lemma df_figures_cases st w :
  (∃ size avail cap,
     df_figures st w = (Returned (size, size - avail, avail, cap), w)
     ∧ size ≠ 0)%Z
  ∨ (∃ e, df_figures st w = (Raised e, w)).
Proof.
  unfold df_figures, int_div_int, int_div_float, math_trunc, mbind, M_bind,
    mret, M_ret, raise.
  change (1024 =? 0)%Z with false. cbv iota.
  destruct (f_frsize st >? 1024)%Z;
    repeat match goal with
      | |- context [trunc ?x] => destruct (trunc x) as [? | ?]
      | |- context [fzero ?x] => destruct (fzero x)
      end; eauto;
    match goal with
    | |- context [(?z =? 0)%Z] => destruct (Z.eqb_spec z 0)
    end; eauto;
    repeat match goal with
      | |- context [trunc ?x] => destruct (trunc x) as [? | ?]
      end; eauto 10.
Qed.

(** [df] never raises and asks the file system once.  It prints either
    its one error line, or the header and one row whose Used and Avail
    add up to its 1K-blocks. *)
Theorem df_prints_table_or_error args w :
  let path := match args with p :: _ => p | [] => "/" end in
  ∃ said,
    ush_df args w
    = (Returned tt, with_trace (trace w ++ EvStatvfs path :: said) w)
    ∧ (said = [EvPrint ("df: no such file or directory: " +:+ path)]
       ∨ ∃ size used avail cap,
           said = [EvPrint (df_row "Filesystem" "1K-blocks" "Used" "Avail"
                              "Capacity");
                   EvPrint (df_row path (Py.str_of_int size)
                              (Py.str_of_int used) (Py.str_of_int avail)
                              (Py.str_of_int cap +:+ "%"))]
           ∧ (used + avail = size)%Z ∧ size ≠ 0%Z).
Proof.
  intros path. unfold ush_df. fold path. unfold try_except, mbind, M_bind.
  rewrite os_statvfs_run.
  assert (He : (print ("df: no such file or directory: " +:+ path))
                 (log (EvStatvfs path) w)
               = (Returned tt,
                  with_trace
                    (trace w
                     ++ EvStatvfs path
                        :: [EvPrint ("df: no such file or directory: "
                                     +:+ path)]) w)).
  { unfold print, emit, modify, log, with_trace. simpl.
    by rewrite <- app_assoc. }
  destruct (fs w !! abspath w path) as [n |].
  - destruct (df_figures_cases (mounts w (abspath w path))
                (log (EvStatvfs path) w))
      as [(size & avail & cap & -> & Hz) | (e & ->)].
    + eexists. split; [| right; exists size, (size - avail)%Z, avail, cap;
                         split; [reflexivity | split; [lia | done]]].
      unfold print, emit, modify, log, with_trace. simpl.
      by rewrite <- !app_assoc.
    + eexists. split; [exact He | by left].
  - eexists. split; [exact He | by left].
Qed.

End DfShape.

(** *** Moving about *)


(** *** Listing in the long form *)

Lemma for_each_ls_entry entries w :
  ∃ lines,
    for_each entries ls_entry w
    = (Returned tt, with_trace (trace w ++ (EvPrint <$> lines)) w)
    ∧ length lines = length entries.
Proof.
  revert w. induction entries as [| f entries IH]; intros w.
  - exists []. simpl. rewrite app_nil_r. by destruct w.
  - assert (Hf : ∃ line, ls_entry f w = (Returned tt, log (EvPrint line) w)).
    { unfold ls_entry.
      destruct (d_type f =? 16384)%Z; [| destruct (d_type f =? 32768)%Z];
        by eexists. }
    destruct Hf as [line Hf].
    destruct (IH (log (EvPrint line) w)) as (lines & Hl & Hn).
    exists (line :: lines). simpl. rewrite (bind_returned _ _ _ _ _ Hf), Hl.
    split; [| by rewrite Hn].
    unfold log, with_trace. simpl. by rewrite <- app_assoc.
Qed.

(** [ls -l] followed by no argument, or by two or more, lists the working
    directory and looks at none of the arguments: one line per entry of
    the directory, or [OSError] where the working directory is gone. *)
Theorem ls_long_lists_working_directory rest w :
  length rest ≠ 1 →
  if is_dir (fs w) (cwd w)
  then ∃ lines,
         ush_ls ("-l" :: rest) w
         = (Returned tt,
            with_trace (trace w ++ EvIlistdir :: (EvPrint <$> lines)) w)
         ∧ length lines = length (children (fs w) (cwd w))
  else ush_ls ("-l" :: rest) w = (Raised OSError, log EvIlistdir w).
Proof.
  intros Hn.
  assert (Hl : ush_ls ("-l" :: rest) w
               = (entries ← os_ilistdir; for_each entries ls_entry) w).
  { by destruct rest as [| a [| b rest]]. }
  rewrite Hl. unfold os_ilistdir, listing, emit, modify, gets, raise, mbind,
    M_bind. simpl.
  destruct (is_dir (fs w) (cwd w)); [| done]. simpl.
  match goal with
  | |- context [for_each ?es ls_entry ?w1] =>
      destruct (for_each_ls_entry es w1) as (lines & Hrun & Hlen)
  end.
  exists lines. rewrite Hrun. split.
  - unfold log, with_trace. simpl. by rewrite <- app_assoc.
  - by rewrite Hlen, length_fmap.
Qed.

Lemma ls_long_lists_working_directory_witness :
  if is_dir (fs Demo.demo) (cwd Demo.demo)
  then ∃ lines,
         ush_ls ["-l"; "lib"; "proc"] Demo.demo
         = (Returned tt,
            with_trace
              (trace Demo.demo ++ EvIlistdir :: (EvPrint <$> lines))
              Demo.demo)
         ∧ length lines = length (children (fs Demo.demo) (cwd Demo.demo))
  else ush_ls ["-l"; "lib"; "proc"] Demo.demo
       = (Raised OSError, log EvIlistdir Demo.demo).
Proof.
  refine (ls_long_lists_working_directory ["lib"; "proc"] Demo.demo _).
  simpl. lia.
Defined.

(** *** The arguments of [uget] *)

(** With two arguments or more, [uget] takes the first as the output file
    and the last as the URL and ignores what is between; with one, that
    is the URL and there is no output file.  [wget] is the same command. *)
Theorem uget_takes_first_and_last `{FL : PyFloat} out mid url w :
  ush_uget (out :: mid ++ [url]) w = http_get url (Some out) w
  ∧ ush_uget [url] w = http_get url None w
  ∧ ∀ args, dispatch "wget" args w = dispatch "uget" args w.
Proof.
  split; [| done]. unfold ush_uget.
  change (out :: mid ++ [url]) with ((out :: mid) ++ [url]).
  rewrite last_last, length_app. simpl.
  by replace (length mid + 1)%nat with (S (length mid)) by lia.
Qed.

(** *** A fetch to a file, and after *)

Lemma ush_cat_file p rest data w :
  fs w !! abspath w p = Some (File data) →
  ush_cat (p :: rest) w
  = (Returned tt,
     with_trace
       (trace w ++ [EvOpen p "r"; EvRead (abspath w p); EvPrint data;
                    EvClose (abspath w p)]) w).
Proof.
  intros H. unfold ush_cat, try_except, finally, open_r, file_read,
    file_close, print, emit, modify, gets, raise, mbind, M_bind. simpl.
  change (abspath (log (EvOpen p "r") w) p) with (abspath w p).
  rewrite H. simpl. rewrite H. simpl.
  unfold log, with_trace. simpl. by rewrite <- !app_assoc.
Qed.


